(** * Model-pack downloader: catalog, fetch-one-file, fetch-pack, listing

    Shallow embedding of [scripts/download_models.py].  The script keeps a
    static catalog of model packs, streams every missing file of a pack to
    disk with one blocking HTTP GET per file, and reports per file and per
    pack.  The embedding threads an explicit [World] (filesystem, standard
    output, log of HTTP requests) through a small state-and-exception
    monad; the behaviour of the remote hosts and of the disk during one
    transfer is an oracle ([Env]).  The creation of the directories when
    the module is loaded and the progress bar, which writes to the error
    stream, are left out. *)

From Stdlib Require Import String Ascii List ZArith QArith Bool Lia.
From stdpp Require Import gmap strings list pretty.

Open Scope string_scope.
Open Scope list_scope.

(** ** Strings and paths *)

(** The line feed. *)
Definition nl : string := String "010" "".

(** [sep.join(items)] *)
Fixpoint join (sep : string) (items : list string) : string :=
  match items with
  | [] => ""
  | [x] => x
  | x :: rest => x +:+ sep +:+ join sep rest
  end.

(** ['=' * n] *)
Fixpoint str_repeat (s : string) (n : nat) : string :=
  match n with
  | O => ""
  | S n' => s +:+ str_repeat s n'
  end.

(** [needle in haystack] for strings. *)
Fixpoint str_contains (needle haystack : string) : bool :=
  String.prefix needle haystack ||
  match haystack with
  | EmptyString => false
  | String _ rest => str_contains needle rest
  end.

(** A [pathlib.Path], kept as its text.  [p </> c] is [p / c]. *)
Abbreviation Path := string (only parsing).

Definition path_join (p : Path) (c : string) : Path := p +:+ "/" +:+ c.
Infix "</>" := path_join (at level 40, left associativity).

(** [Path.name]: the text after the last separator. *)
Fixpoint path_name_from (acc : string) (s : string) : string :=
  match s with
  | EmptyString => acc
  | String c rest =>
      if Ascii.eqb c "/" then path_name_from "" rest
      else path_name_from (acc +:+ String c "") rest
  end.

Definition path_name (p : Path) : string := path_name_from "" p.

(** ** Reading and printing sizes *)

(** Python's [str.split()] separators within ASCII. *)
Definition is_space (c : ascii) : bool :=
  let n := nat_of_ascii c in
  (n =? 32)%nat || ((9 <=? n)%nat && (n <=? 13)%nat)
  || ((28 <=? n)%nat && (n <=? 31)%nat).

Fixpoint skip_spaces (s : string) : string :=
  match s with
  | String c rest => if is_space c then skip_spaces rest else s
  | EmptyString => EmptyString
  end.

Fixpoint take_token (s : string) : string :=
  match s with
  | String c rest => if is_space c then "" else String c (take_token rest)
  | EmptyString => EmptyString
  end.

Definition digit_of (c : ascii) : option N :=
  let n := N_of_ascii c in
  if (48 <=? n)%N && (n <=? 57)%N then Some (n - 48)%N else None.

(** Reads a run of digits: its value after [acc], its length after
    [count], and the rest of the text. *)
Fixpoint read_digits (s : string) (acc : N) (count : nat) : N * nat * string :=
  match s with
  | String c rest =>
      match digit_of c with
      | Some d => read_digits rest (acc * 10 + d)%N (S count)
      | None => (acc, count, s)
      end
  | EmptyString => (acc, count, EmptyString)
  end.

Fixpoint pow10 (n : nat) : positive :=
  match n with
  | O => 1%positive
  | S n' => (10 * pow10 n')%positive
  end.

(** A decimal numeral [digits], [digits.digits], [digits.] or [.digits].
    The value is kept exact, where Python keeps the nearest double. *)
Definition parse_unsigned (s : string) : option Q :=
  let '(ip, n1, r1) := read_digits s 0%N 0 in
  match r1 with
  | EmptyString => if (n1 =? 0)%nat then None else Some (Z.of_N ip # 1)
  | String "." r2 =>
      let '(fp, n2, r3) := read_digits r2 0%N 0 in
      match r3 with
      | EmptyString =>
          if (n1 + n2 =? 0)%nat then None
          else Some (Z.of_N (ip * Npos (pow10 n2) + fp) # pow10 n2)
      | _ => None
      end
  | _ => None
  end.

(** [float(s)] on a signed decimal numeral; the other spellings that
    Python accepts (exponents, [inf], [nan], underscores) do not occur
    in the catalog and are not read. *)
Definition parse_float (s : string) : option Q :=
  match s with
  | String "-" rest => Qopp <$> parse_unsigned rest
  | String "+" rest => parse_unsigned rest
  | _ => parse_unsigned s
  end.

(** Nearest integer to [n / d], ties to even. *)
Definition round_half_even (n : Z) (d : positive) : Z :=
  let fl := (n / Zpos d)%Z in
  let r := (n mod Zpos d)%Z in
  match (2 * r ?= Zpos d)%Z with
  | Lt => fl
  | Gt => (fl + 1)%Z
  | Eq => if Z.even fl then fl else (fl + 1)%Z
  end.

(** [f"{x:.1f}"], on the exact value. *)
Definition format_1f (x : Q) : string :=
  let t := round_half_even (Z.abs (Qnum x) * 10) (Qden x) in
  (if (Qnum x <? 0)%Z then "-" else "") +:+
  pretty (t / 10)%Z +:+ "." +:+ pretty (t mod 10)%Z.

(** ** Data model: file entries and packs *)

(** One entry of a pack group.  The keys ['url'] and ['path'] are always
    indexed directly; ['size'] and ['optional'] are read with [.get] and
    may be absent. *)
Record FileEntry := {
  fi_url : string;
  fi_path : Path;
  fi_size : option string;
  fi_optional : option bool
}.

(** [file_info.get('optional', False)] *)
Definition get_optional (file_info : FileEntry) : bool :=
  default false (fi_optional file_info).

(** [file_info.get('size', dflt)] *)
Definition get_size (dflt : string) (file_info : FileEntry) : string :=
  default dflt (fi_size file_info).

(** A dict literal keeps insertion order, which the loops follow:
    a group is an association list. *)
Definition Group := list (string * FileEntry).

Record Pack := {
  pk_name : string;
  pk_description : string;
  pk_files : Group;
  pk_loras : option Group;
  pk_controlnet : option Group;
  pk_embeddings : option Group
}.

(** [key in d] and [d[key]] on an association list. *)
Fixpoint assoc {A} (key : string) (d : list (string * A)) : option A :=
  match d with
  | [] => None
  | (k, v) :: rest => if String.eqb key k then Some v else assoc key rest
  end.

Definition keys {A} (d : list (string * A)) : list string := map fst d.

(** ** Exceptions, remote hosts and the world *)

(** The exception classes that the operations of the program raise:
    [requests.get] (connection, timeout), [raise_for_status] (HTTP status),
    [iter_content] (broken stream), [int] and [float] (value error),
    indexing an empty list, and [open] / [write] / [unlink]
    (operating-system errors).  All derive from [Exception].  Signals
    delivered from outside the transfer (an interrupt of the process) are
    kept apart, under [Signal] below. *)
Inductive ExcClass :=
  | ConnectionError
  | Timeout
  | HTTPError
  | ChunkedEncodingError
  | ValueError
  | IndexError
  | OSError.

Record PyExc := {
  exc_class : ExcClass;
  exc_msg : string          (* [str(e)] *)
}.

(** The transfer-length header of a response, as [int(...)] sees it. *)
Inductive ContentLength :=
  | LengthAbsent                   (* [.get('content-length', 0)] gives 0 *)
  | LengthMalformed                (* [int] raises ValueError *)
  | LengthDeclared (n : N).

Record Response := {
  status_code : nat;
  reason : string;
  content_length : ContentLength;
  chunks : list (list Byte.byte);      (* what [iter_content] yields *)
  stream_error : option PyExc          (* raised by [iter_content] after them *)
}.

(** Everything outside the program's control during one invocation of the
    transfer: the answer to the GET, whether the destination can be opened
    for writing, and whether writing the i-th chunk fails. *)
Record Transfer := {
  get_result : PyExc + Response;
  open_error : option PyExc;
  write_error : nat -> option PyExc
}.

(** The environment answers the n-th request of the process, for a URL
    and a destination. *)
Definition Env := nat -> string -> Path -> Transfer.

(** The three call sites of [download_file] in [download_model_pack]. *)
Inductive Site := MainFiles | Loras | Controlnet.

(** Ghost record of one finished call of [download_file] from the pack
    loops: where it came from, for which entry, and what it returned.
    It is written by nothing the program can read. *)
Record Call := {
  call_site : Site;
  call_key : string;
  call_entry : FileEntry;
  call_result : bool
}.

Record World := {
  fs : gmap string (list Byte.byte);   (* files on disk, by path *)
  stdout : list string;                (* texts written by [print], oldest first *)
  requests : list string;              (* URLs given to [requests.get], oldest first *)
  calls : list Call                    (* ghost *)
}.

Definition set_fs (f : gmap string (list Byte.byte) -> gmap string (list Byte.byte))
    (w : World) : World :=
  {| fs := f (fs w); stdout := stdout w; requests := requests w; calls := calls w |}.

Definition add_stdout (s : string) (w : World) : World :=
  {| fs := fs w; stdout := stdout w ++ [s]; requests := requests w; calls := calls w |}.

Definition add_request (u : string) (w : World) : World :=
  {| fs := fs w; stdout := stdout w; requests := requests w ++ [u]; calls := calls w |}.

Definition add_call (c : Call) (w : World) : World :=
  {| fs := fs w; stdout := stdout w; requests := requests w; calls := calls w ++ [c] |}.

(** ** A state-and-exception monad *)

Inductive Result (A : Type) :=
  | Returned (a : A)
  | Raised (e : PyExc).
Arguments Returned {A} a.
Arguments Raised {A} e.

Definition M (A : Type) := World -> Result A * World.

Definition ret {A} (a : A) : M A := fun w => (Returned a, w).

Definition bind {A B} (m : M A) (k : A -> M B) : M B :=
  fun w => match m w with
           | (Returned a, w') => k a w'
           | (Raised e, w') => (Raised e, w')
           end.

Definition raise {A} (e : PyExc) : M A := fun w => (Raised e, w).

(** [try: body  except Exception as e: handler(e)].  Every class of
    [ExcClass] derives from [Exception], so the clause matches; with
    signals about, see [try_except_Exception]. *)
Definition try_except {A} (body : M A) (handler : PyExc -> M A) : M A :=
  fun w => match body w with
           | (Returned a, w') => (Returned a, w')
           | (Raised e, w') => handler e w'
           end.

Declare Scope py_scope.
Delimit Scope py_scope with py.
Notation "x <- m ;; k" := (bind m (fun x => k))
  (at level 100, m at next level, right associativity) : py_scope.
Notation "m ;;; k" := (bind m (fun _ => k))
  (at level 100, right associativity) : py_scope.
Open Scope py_scope.

(** [print(s)] and [print(s, end="")] *)
Definition print (s : string) : M unit :=
  fun w => (Returned tt, add_stdout (s +:+ nl) w).

Definition print_noend (s : string) : M unit :=
  fun w => (Returned tt, add_stdout s w).

(** [destination.exists()] *)
Definition path_exists (p : Path) : M bool :=
  fun w => (Returned (bool_decide (is_Some (fs w !! p))), w).

(** [destination.unlink()]: removing a missing file is an error. *)
Definition unlink (p : Path) : M unit :=
  fun w => match fs w !! p with
           | Some _ => (Returned tt, set_fs (delete p) w)
           | None => (Raised {| exc_class := OSError;
                                exc_msg := "No such file or directory: " +:+ p |}, w)
           end.

(** Ghost: note a finished call of [download_file]. *)
Definition note_call (site : Site) (key : string) (entry : FileEntry) (ok : bool)
    : M unit :=
  fun w => (Returned tt,
            add_call {| call_site := site; call_key := key;
                        call_entry := entry; call_result := ok |} w).

(** [text.split()[0]] *)
Definition first_token (text : string) : M string :=
  match skip_spaces text with
  | EmptyString =>
      raise {| exc_class := IndexError; exc_msg := "list index out of range" |}
  | s => ret (take_token s)
  end.

(** [float(token)] *)
Definition py_float (token : string) : M Q :=
  match parse_float token with
  | Some x => ret x
  | None =>
      raise {| exc_class := ValueError;
               exc_msg := "could not convert string to float: '" +:+ token +:+ "'" |}
  end.

(** ** Signals, and a disk that refuses *)

(** The exceptions that [except Exception] does not match: their classes
    derive from [BaseException] alone. *)
Inductive Signal :=
  | KeyboardInterrupt
  | SystemExit.

(** An exception in flight: of a class that derives from [Exception], or
    a signal. *)
Inductive Thrown :=
  | OfException (e : PyExc)
  | OfSignal (s : Signal).

Inductive Outcome (A : Type) :=
  | Normal (a : A)
  | Propagated (t : Thrown).
Arguments Normal {A} a.
Arguments Propagated {A} t.

Definition MS (A : Type) := World -> Outcome A * World.

Definition ret_s {A} (a : A) : MS A := fun w => (Normal a, w).

Definition bind_s {A B} (m : MS A) (k : A -> MS B) : MS B :=
  fun w => match m w with
           | (Normal a, w') => k a w'
           | (Propagated t, w') => (Propagated t, w')
           end.

(** A computation that raises nothing but exceptions of the model. *)
Definition lift {A} (m : M A) : MS A :=
  fun w => match m w with
           | (Returned a, w') => (Normal a, w')
           | (Raised e, w') => (Propagated (OfException e), w')
           end.

(** [try: body  except Exception as e: handler(e)], with signals about:
    the clause matches an exception and lets a signal go on to the
    caller. *)
Definition try_except_Exception {A} (body : MS A) (handler : PyExc -> MS A) : MS A :=
  fun w => match body w with
           | (Normal a, w') => (Normal a, w')
           | (Propagated (OfException e), w') => handler e w'
           | (Propagated (OfSignal s), w') => (Propagated (OfSignal s), w')
           end.

Declare Scope sig_scope.
Delimit Scope sig_scope with sig.
Notation "x <- m ;; k" := (bind_s m (fun x => k))
  (at level 100, m at next level, right associativity) : sig_scope.
Notation "m ;;; k" := (bind_s m (fun _ => k))
  (at level 100, right associativity) : sig_scope.

(** What else the surroundings can do to one call of the transfer:
    deliver a signal while [requests.get] waits, and refuse to remove
    the destination. *)
Record Hazards := {
  signal_in_get : option Signal;
  unlink_error : option PyExc
}.

Definition HazardEnv := nat -> string -> Path -> Hazards.

(** ** Sample worlds and environments *)

(** The root when [MODEL_DIR] is not set. *)
Definition default_root : string := "/workspace/models".

Definition empty_world : World :=
  {| fs := ∅; stdout := []; requests := []; calls := [] |}.

(** A disk that holds one (empty) file. *)
Definition world_with (p : Path) : World :=
  {| fs := {[ p := [] ]}; stdout := []; requests := []; calls := [] |}.

Definition no_disk_trouble (get : PyExc + Response) : Transfer :=
  {| get_result := get; open_error := None; write_error := fun _ => None |}.

(** Every connection is refused. *)
Definition refusing : Env :=
  fun _ _ _ =>
    no_disk_trouble (inl {| exc_class := ConnectionError;
                            exc_msg := "Connection refused" |}).

(** Every request is answered in full. *)
Definition serving : Env :=
  fun _ _ _ =>
    no_disk_trouble (inr {| status_code := 200; reason := "OK";
                            content_length := LengthDeclared 2;
                            chunks := [[Byte.x50]; [Byte.x4b]];
                            stream_error := None |}).

(** Every request is answered, and the stream breaks after the first
    chunk has been written. *)
Definition breaking : Env :=
  fun _ _ _ =>
    no_disk_trouble (inr {| status_code := 200; reason := "OK";
                            content_length := LengthDeclared 2;
                            chunks := [[Byte.x50]];
                            stream_error :=
                              Some {| exc_class := ChunkedEncodingError;
                                      exc_msg := "Connection broken" |} |}).

(** Every request is answered with status 404. *)
Definition missing : Env :=
  fun _ _ _ =>
    no_disk_trouble (inr {| status_code := 404; reason := "Not Found";
                            content_length := LengthAbsent;
                            chunks := [];
                            stream_error := None |}).

(** Every request is answered with status 200 and a length header that
    is not a number. *)
Definition garbled_length : Env :=
  fun _ _ _ =>
    no_disk_trouble (inr {| status_code := 200; reason := "OK";
                            content_length := LengthMalformed;
                            chunks := [[Byte.x50]];
                            stream_error := None |}).

(** A disk that holds the two main files of the pack ['sd15'] under the
    default root. *)
Definition sd15_on_disk : World :=
  {| fs := {[ "/workspace/models/checkpoints/v1-5-pruned-emaonly.safetensors" := [];
              "/workspace/models/vae/sd15_vae.safetensors" := [] ]};
     stdout := []; requests := []; calls := [] |}.

(** A pack whose main files have a label in a smaller unit, or none. *)
Definition small_pack : Pack :=
  {| pk_name := "Small";
     pk_description := "Two small files";
     pk_files :=
       [ ("weights", {| fi_url := "https://host.example/weights.pth";
                        fi_path := "/workspace/models/upscale_models/weights.pth";
                        fi_size := Some "64 MB"; fi_optional := None |});
         ("notes", {| fi_url := "https://host.example/notes.txt";
                      fi_path := "/workspace/models/upscale_models/notes.txt";
                      fi_size := None; fi_optional := Some true |}) ];
     pk_loras := None;
     pk_controlnet := None;
     pk_embeddings := None |}.

(** A pack, not of the catalog, with a LoRA and a ControlNet that are not
    optional. *)
Definition strict_lora : FileEntry :=
  {| fi_url := "https://host.example/style.safetensors";
     fi_path := "/workspace/models/loras/style.safetensors";
     fi_size := Some "144 MB"; fi_optional := None |}.

Definition strict_pack : Pack :=
  {| pk_name := "Strict";
     pk_description := "Required extras";
     pk_files :=
       [ ("base", {| fi_url := "https://host.example/base.safetensors";
                     fi_path := "/workspace/models/checkpoints/base.safetensors";
                     fi_size := Some "2.0 GB"; fi_optional := None |}) ];
     pk_loras :=
       Some [ ("style", strict_lora);
              ("extra", {| fi_url := "https://host.example/extra.safetensors";
                           fi_path := "/workspace/models/loras/extra.safetensors";
                           fi_size := Some "23 MB"; fi_optional := Some true |}) ];
     pk_controlnet :=
       Some [ ("pose", {| fi_url := "https://host.example/pose.pth";
                          fi_path := "/workspace/models/controlnet/pose.pth";
                          fi_size := Some "1.45 GB"; fi_optional := Some false |}) ];
     pk_embeddings := None |}.

(** No signal, and every file can be removed. *)
Definition calm : HazardEnv :=
  fun _ _ _ => {| signal_in_get := None; unlink_error := None |}.

(** The user interrupts every request. *)
Definition interrupting : HazardEnv :=
  fun _ _ _ => {| signal_in_get := Some KeyboardInterrupt; unlink_error := None |}.

(** No file can be removed. *)
Definition unlink_refused : HazardEnv :=
  fun _ _ _ =>
    {| signal_in_get := None;
       unlink_error := Some {| exc_class := OSError;
                               exc_msg := "Permission denied" |} |}.

(** ** The catalog *)

Section Downloader.

(** [Path(os.getenv('MODEL_DIR', '/workspace/models'))]: fixed by the
    process environment. *)
Variable MODEL_DIR : Path.

Definition CHECKPOINTS_DIR := MODEL_DIR </> "checkpoints".
Definition UNET_DIR := MODEL_DIR </> "unet".
Definition UPSCALE_MODELS_DIR := MODEL_DIR </> "upscale_models".
Definition VAE_DIR := MODEL_DIR </> "vae".
Definition CLIP_DIR := MODEL_DIR </> "clip".
Definition LORAS_DIR := MODEL_DIR </> "loras".
Definition CONTROLNET_DIR := MODEL_DIR </> "controlnet".
Definition IPADAPTER_DIR := MODEL_DIR </> "ipadapter".
Definition EMBEDDINGS_DIR := MODEL_DIR </> "embeddings".
Definition STYLE_MODELS_DIR := MODEL_DIR </> "style_models".

Definition pack_flux_dev : Pack :=
  {| pk_name := "FLUX.1-dev";
     pk_description := "Black Forest Labs FLUX.1-dev (12B parameter model)";
     pk_files := [
      ("checkpoint",
       {| fi_url := "https://huggingface.co/black-forest-labs/FLUX.1-dev/resolve/main/flux1-dev.safetensors";
          fi_path := CHECKPOINTS_DIR </> "flux1-dev.safetensors";
          fi_size := Some "23.8 GB"; fi_optional := None |});
      ("clip_l",
       {| fi_url := "https://huggingface.co/comfyanonymous/flux_text_encoders/resolve/main/clip_l.safetensors";
          fi_path := CLIP_DIR </> "clip_l.safetensors";
          fi_size := Some "246 MB"; fi_optional := None |});
      ("t5xxl",
       {| fi_url := "https://huggingface.co/comfyanonymous/flux_text_encoders/resolve/main/t5xxl_fp16.safetensors";
          fi_path := CLIP_DIR </> "t5xxl_fp16.safetensors";
          fi_size := Some "9.79 GB"; fi_optional := None |});
      ("vae",
       {| fi_url := "https://huggingface.co/black-forest-labs/FLUX.1-dev/resolve/main/ae.safetensors";
          fi_path := VAE_DIR </> "flux_vae.safetensors";
          fi_size := Some "335 MB"; fi_optional := None |}) ];
     pk_loras := Some [
      ("flux-realism",
       {| fi_url := "https://huggingface.co/XLabs-AI/flux-RealismLora/resolve/main/lora.safetensors";
          fi_path := LORAS_DIR </> "flux-realism.safetensors";
          fi_size := Some "382 MB"; fi_optional := Some true |}) ];
     pk_controlnet := None;
     pk_embeddings := None |}.

Definition pack_flux_schnell : Pack :=
  {| pk_name := "FLUX.1-schnell";
     pk_description := "Black Forest Labs FLUX.1-schnell (fast inference)";
     pk_files := [
      ("checkpoint",
       {| fi_url := "https://huggingface.co/black-forest-labs/FLUX.1-schnell/resolve/main/flux1-schnell.safetensors";
          fi_path := CHECKPOINTS_DIR </> "flux1-schnell.safetensors";
          fi_size := Some "23.8 GB"; fi_optional := None |});
      ("clip_l",
       {| fi_url := "https://huggingface.co/comfyanonymous/flux_text_encoders/resolve/main/clip_l.safetensors";
          fi_path := CLIP_DIR </> "clip_l.safetensors";
          fi_size := Some "246 MB"; fi_optional := None |});
      ("t5xxl",
       {| fi_url := "https://huggingface.co/comfyanonymous/flux_text_encoders/resolve/main/t5xxl_fp8_e4m3fn.safetensors";
          fi_path := CLIP_DIR </> "t5xxl_fp8_e4m3fn.safetensors";
          fi_size := Some "4.89 GB"; fi_optional := None |});
      ("vae",
       {| fi_url := "https://huggingface.co/black-forest-labs/FLUX.1-schnell/resolve/main/ae.safetensors";
          fi_path := VAE_DIR </> "flux_vae.safetensors";
          fi_size := Some "335 MB"; fi_optional := None |}) ];
     pk_loras := None;
     pk_controlnet := None;
     pk_embeddings := None |}.

Definition pack_sdxl : Pack :=
  {| pk_name := "Stable Diffusion XL";
     pk_description := "Stability AI SDXL 1.0 base model";
     pk_files := [
      ("checkpoint",
       {| fi_url := "https://huggingface.co/stabilityai/stable-diffusion-xl-base-1.0/resolve/main/sd_xl_base_1.0.safetensors";
          fi_path := CHECKPOINTS_DIR </> "sd_xl_base_1.0.safetensors";
          fi_size := Some "6.94 GB"; fi_optional := None |});
      ("refiner",
       {| fi_url := "https://huggingface.co/stabilityai/stable-diffusion-xl-refiner-1.0/resolve/main/sd_xl_refiner_1.0.safetensors";
          fi_path := CHECKPOINTS_DIR </> "sd_xl_refiner_1.0.safetensors";
          fi_size := Some "6.08 GB"; fi_optional := Some true |});
      ("vae",
       {| fi_url := "https://huggingface.co/stabilityai/sdxl-vae/resolve/main/sdxl_vae.safetensors";
          fi_path := VAE_DIR </> "sdxl_vae.safetensors";
          fi_size := Some "335 MB"; fi_optional := None |}) ];
     pk_loras := Some [
      ("realistic_skin_texture",
       {| fi_url := "https://civitai.com/api/download/models/707763?token=b52f18fe1b10f6878747dbd8419924dc";
          fi_path := LORAS_DIR </> "realistic_skin_texture_v4.safetensors";
          fi_size := Some "144 MB"; fi_optional := Some true |});
      ("skin_realism_acne",
       {| fi_url := "https://civitai.com/api/download/models/340833?token=b52f18fe1b10f6878747dbd8419924dc";
          fi_path := LORAS_DIR </> "skin_realism_acne_details.safetensors";
          fi_size := Some "143 MB"; fi_optional := Some true |});
      ("touch_of_realism",
       {| fi_url := "https://civitai.com/api/download/models/1934796?token=b52f18fe1b10f6878747dbd8419924dc";
          fi_path := LORAS_DIR </> "touch_of_realism_sdxl_v2.safetensors";
          fi_size := Some "143 MB"; fi_optional := Some true |}) ];
     pk_controlnet := None;
     pk_embeddings := Some [
      ("realistic_skin_ti",
       {| fi_url := "https://civitai.com/api/download/models/2192131?token=b52f18fe1b10f6878747dbd8419924dc";
          fi_path := EMBEDDINGS_DIR </> "RealisticSkin.safetensors";
          fi_size := Some "12 KB"; fi_optional := Some true |}) ] |}.

Definition pack_sdxl_biglove : Pack :=
  {| pk_name := "SDXL Big Love (Photorealistic Checkpoint)";
     pk_description := "Community fine-tuned SDXL checkpoint focused on photorealistic portraits";
     pk_files := [
      ("checkpoint",
       {| fi_url := "https://civitai.com/api/download/models/2291289?token=b52f18fe1b10f6878747dbd8419924dc";
          fi_path := CHECKPOINTS_DIR </> "bigLove_insta1.safetensors";
          fi_size := Some "6.46 GB"; fi_optional := None |});
      ("vae",
       {| fi_url := "https://huggingface.co/stabilityai/sdxl-vae/resolve/main/sdxl_vae.safetensors";
          fi_path := VAE_DIR </> "sdxl_vae.safetensors";
          fi_size := Some "335 MB"; fi_optional := None |}) ];
     pk_loras := Some [
      ("realistic_skin_texture",
       {| fi_url := "https://civitai.com/api/download/models/707763?token=b52f18fe1b10f6878747dbd8419924dc";
          fi_path := LORAS_DIR </> "realistic_skin_texture_v4.safetensors";
          fi_size := Some "144 MB"; fi_optional := Some true |}) ];
     pk_controlnet := None;
     pk_embeddings := None |}.

Definition pack_wan22 : Pack :=
  {| pk_name := "WAN 2.2 (Text-to-Video 14B)";
     pk_description := "Wuerstchen Architecture Network 2.2 - High quality text-to-video generation (14B params)";
     pk_files := [
      ("unet_low_noise",
       {| fi_url := "https://huggingface.co/MaxedOut/ComfyUI-Starter-Packs/resolve/main/Wan2.2/unet_14b/wan2.2_t2v_low_noise_14B_fp8_scaled.safetensors";
          fi_path := UNET_DIR </> "wan2.2_t2v_low_noise_14B_fp8_scaled.safetensors";
          fi_size := Some "13.5 GB"; fi_optional := None |});
      ("unet_high_noise",
       {| fi_url := "https://huggingface.co/MaxedOut/ComfyUI-Starter-Packs/resolve/main/Wan2.2/unet_14b/wan2.2_t2v_high_noise_14B_fp8_scaled.safetensors";
          fi_path := UNET_DIR </> "wan2.2_t2v_high_noise_14B_fp8_scaled.safetensors";
          fi_size := Some "13.5 GB"; fi_optional := None |});
      ("clip",
       {| fi_url := "https://huggingface.co/MaxedOut/ComfyUI-Starter-Packs/resolve/main/Wan2.2/clip/umt5_xxl_fp8_e4m3fn_scaled.safetensors";
          fi_path := CLIP_DIR </> "umt5_xxl_fp8_e4m3fn_scaled.safetensors";
          fi_size := Some "4.89 GB"; fi_optional := None |});
      ("vae",
       {| fi_url := "https://huggingface.co/MaxedOut/ComfyUI-Starter-Packs/resolve/main/Wan2.2/vae/wan_2.1_vae.safetensors";
          fi_path := VAE_DIR </> "wan_2.1_vae.safetensors";
          fi_size := Some "335 MB"; fi_optional := None |}) ];
     pk_loras := Some [
      ("lightning_low",
       {| fi_url := "https://huggingface.co/MaxedOut/ComfyUI-Starter-Packs/resolve/main/Wan2.2/loras_14b/Wan2.2-Lightning_T2V-v1.1-A14B-4steps-lora_LOW_fp16.safetensors";
          fi_path := LORAS_DIR </> "wan22_lightning_low_4steps.safetensors";
          fi_size := Some "2.1 GB"; fi_optional := Some true |});
      ("lightning_high",
       {| fi_url := "https://huggingface.co/MaxedOut/ComfyUI-Starter-Packs/resolve/main/Wan2.2/loras_14b/Wan2.2-Lightning_T2V-v1.1-A14B-4steps-lora_HIGH_fp16.safetensors";
          fi_path := LORAS_DIR </> "wan22_lightning_high_4steps.safetensors";
          fi_size := Some "2.1 GB"; fi_optional := Some true |});
      ("lenovo_ultrareal",
       {| fi_url := "https://civitai.com/api/download/models/2066914?token=b52f18fe1b10f6878747dbd8419924dc";
          fi_path := LORAS_DIR </> "lenovo_ultrareal_wan22.safetensors";
          fi_size := Some "2.1 GB"; fi_optional := Some true |}) ];
     pk_controlnet := None;
     pk_embeddings := None |}.

Definition pack_qwen_image : Pack :=
  {| pk_name := "Qwen Image Edit 2509 (Lightning)";
     pk_description := "Alibaba Qwen 2.5 VL - Image editing and generation with 4-step Lightning inference";
     pk_files := [
      ("checkpoint",
       {| fi_url := "https://huggingface.co/Comfy-Org/Qwen-Image_ComfyUI/resolve/main/split_files/diffusion_models/qwen_image_2509_fp8_scaled.safetensors";
          fi_path := CHECKPOINTS_DIR </> "qwen_image_2509_fp8_scaled.safetensors";
          fi_size := Some "7.8 GB"; fi_optional := None |});
      ("text_encoder",
       {| fi_url := "https://huggingface.co/Comfy-Org/Qwen-Image_ComfyUI/resolve/main/split_files/text_encoders/qwen_2.5_vl_7b_fp8_scaled.safetensors";
          fi_path := CLIP_DIR </> "qwen_2.5_vl_7b_fp8_scaled.safetensors";
          fi_size := Some "4.2 GB"; fi_optional := None |});
      ("vae",
       {| fi_url := "https://huggingface.co/Comfy-Org/Qwen-Image_ComfyUI/resolve/main/split_files/vae/qwen_image_vae.safetensors";
          fi_path := VAE_DIR </> "qwen_image_vae.safetensors";
          fi_size := Some "335 MB"; fi_optional := None |}) ];
     pk_loras := Some [
      ("lightning_v1",
       {| fi_url := "https://huggingface.co/lightx2v/Qwen-Image-Lightning/resolve/main/Qwen-Image-Lightning-4steps-V1.0.safetensors";
          fi_path := LORAS_DIR </> "qwen_image_lightning_4steps_v1.0.safetensors";
          fi_size := Some "1.2 GB"; fi_optional := Some true |});
      ("lightning_alt",
       {| fi_url := "https://huggingface.co/alexgenovese/checkpoint/resolve/main/Qwen/Qwen-Image-Lightning-4steps-V1.0.safetensors";
          fi_path := LORAS_DIR </> "qwen_image_lightning_4steps_alt.safetensors";
          fi_size := Some "1.2 GB"; fi_optional := Some true |}) ];
     pk_controlnet := None;
     pk_embeddings := None |}.

Definition pack_sd15 : Pack :=
  {| pk_name := "Stable Diffusion 1.5";
     pk_description := "Classic SD 1.5 - still widely used";
     pk_files := [
      ("checkpoint",
       {| fi_url := "https://huggingface.co/runwayml/stable-diffusion-v1-5/resolve/main/v1-5-pruned-emaonly.safetensors";
          fi_path := CHECKPOINTS_DIR </> "v1-5-pruned-emaonly.safetensors";
          fi_size := Some "3.97 GB"; fi_optional := None |});
      ("vae",
       {| fi_url := "https://huggingface.co/stabilityai/sd-vae-ft-mse-original/resolve/main/vae-ft-mse-840000-ema-pruned.safetensors";
          fi_path := VAE_DIR </> "sd15_vae.safetensors";
          fi_size := Some "335 MB"; fi_optional := None |}) ];
     pk_loras := None;
     pk_controlnet := Some [
      ("canny",
       {| fi_url := "https://huggingface.co/lllyasviel/ControlNet-v1-1/resolve/main/control_v11p_sd15_canny.pth";
          fi_path := CONTROLNET_DIR </> "control_v11p_sd15_canny.pth";
          fi_size := Some "1.45 GB"; fi_optional := Some true |});
      ("depth",
       {| fi_url := "https://huggingface.co/lllyasviel/ControlNet-v1-1/resolve/main/control_v11f1p_sd15_depth.pth";
          fi_path := CONTROLNET_DIR </> "control_v11f1p_sd15_depth.pth";
          fi_size := Some "1.45 GB"; fi_optional := Some true |}) ];
     pk_embeddings := None |}.

Definition pack_upscalers : Pack :=
  {| pk_name := "AI Upscaler Pack (Image & Video)";
     pk_description := "Complete upscaling suite - ESRGAN, RealESRGAN, SeedVR2, and detail enhancement models";
     pk_files := [
      ("seedvr2",
       {| fi_url := "https://huggingface.co/numz/SeedVR2_comfyUI/resolve/main/seedvr2_ema_7b_sharp_fp8_e4m3fn.safetensors";
          fi_path := UPSCALE_MODELS_DIR </> "seedvr2_ema_7b_sharp_fp8.safetensors";
          fi_size := Some "7.2 GB"; fi_optional := None |});
      ("realesrgan_x4plus",
       {| fi_url := "https://github.com/xinntao/Real-ESRGAN/releases/download/v0.1.0/RealESRGAN_x4plus.pth";
          fi_path := UPSCALE_MODELS_DIR </> "RealESRGAN_x4plus.pth";
          fi_size := Some "64 MB"; fi_optional := None |});
      ("realesrgan_x4plus_anime",
       {| fi_url := "https://github.com/xinntao/Real-ESRGAN/releases/download/v0.2.2.4/RealESRGAN_x4plus_anime_6B.pth";
          fi_path := UPSCALE_MODELS_DIR </> "RealESRGAN_x4plus_anime_6B.pth";
          fi_size := Some "17.9 MB"; fi_optional := None |});
      ("ultrasharp_4x",
       {| fi_url := "https://huggingface.co/lokCX/4x-Ultrasharp/resolve/main/4x-UltraSharp.pth";
          fi_path := UPSCALE_MODELS_DIR </> "4x-UltraSharp.pth";
          fi_size := Some "67 MB"; fi_optional := None |});
      ("lollypop_4x",
       {| fi_url := "https://huggingface.co/Kim2091/UltraSharp/resolve/main/4x-Lollypop.pth";
          fi_path := UPSCALE_MODELS_DIR </> "4x-Lollypop.pth";
          fi_size := Some "67 MB"; fi_optional := Some true |});
      ("nmkd_superscale",
       {| fi_url := "https://huggingface.co/gemasai/4x_NMKD-Superscale-SP_178000_G/resolve/main/4x_NMKD-Superscale-SP_178000_G.pth";
          fi_path := UPSCALE_MODELS_DIR </> "4x_NMKD-Superscale-SP_178000_G.pth";
          fi_size := Some "67 MB"; fi_optional := Some true |});
      ("ldsr",
       {| fi_url := "https://huggingface.co/lllyasviel/Annotators/resolve/main/ldsr/last.ckpt";
          fi_path := UPSCALE_MODELS_DIR </> "ldsr.ckpt";
          fi_size := Some "2.0 GB"; fi_optional := Some true |}) ];
     pk_loras := Some [
      ("skin_detail_lite",
       {| fi_url := "https://huggingface.co/gemasai/x1_ITF_SkinDiffDetail_Lite_v1/resolve/main/x1_ITF_SkinDiffDetail_Lite_v1.safetensors";
          fi_path := LORAS_DIR </> "skin_detail_lite_v1.safetensors";
          fi_size := Some "144 MB"; fi_optional := Some true |});
      ("detail_tweaker",
       {| fi_url := "https://huggingface.co/Birchlabs/detail-tweaker-xl/resolve/main/detail-tweaker-xl.safetensors";
          fi_path := LORAS_DIR </> "detail_tweaker_xl.safetensors";
          fi_size := Some "23 MB"; fi_optional := Some true |}) ];
     pk_controlnet := None;
     pk_embeddings := None |}.

Definition MODEL_PACKS : list (string * Pack) :=
  [ ("flux-dev", pack_flux_dev);
    ("flux-schnell", pack_flux_schnell);
    ("sdxl", pack_sdxl);
    ("sdxl-biglove", pack_sdxl_biglove);
    ("wan22", pack_wan22);
    ("qwen-image", pack_qwen_image);
    ("sd15", pack_sd15);
    ("upscalers", pack_upscalers) ].

(** ** Fetch one file *)

Variable env : Env.

(** What the environment holds for the request about to be made. *)
Definition next_transfer (url : string) (destination : Path) : M Transfer :=
  fun w => (Returned (env (length (requests w)) url destination), w).

(** [requests.get(url, stream=True, timeout=30)]: one request goes out,
    whatever its outcome. *)
Definition requests_get (t : Transfer) (url : string) : M Response :=
  fun w => match get_result t with
           | inl e => (Raised e, add_request url w)
           | inr r => (Returned r, add_request url w)
           end.

(** [response.raise_for_status()] *)
Definition raise_for_status (url : string) (r : Response) : M unit :=
  if (400 <=? status_code r)%nat && (status_code r <? 500)%nat then
    raise {| exc_class := HTTPError;
             exc_msg := pretty (status_code r) +:+ " Client Error: " +:+ reason r
                        +:+ " for url: " +:+ url |}
  else if (500 <=? status_code r)%nat && (status_code r <? 600)%nat then
    raise {| exc_class := HTTPError;
             exc_msg := pretty (status_code r) +:+ " Server Error: " +:+ reason r
                        +:+ " for url: " +:+ url |}
  else ret tt.

(** [int(response.headers.get('content-length', 0))] *)
Definition total_size_of (r : Response) : M N :=
  match content_length r with
  | LengthAbsent => ret 0%N
  | LengthMalformed =>
      raise {| exc_class := ValueError;
               exc_msg := "invalid literal for int() with base 10" |}
  | LengthDeclared n => ret n
  end.

(** [open(destination, 'wb')]: creates the file, or empties it. *)
Definition open_wb (t : Transfer) (destination : Path) : M unit :=
  match open_error t with
  | Some e => raise e
  | None => fun w => (Returned tt, set_fs (<[destination := []]>) w)
  end.

(** [f.write(chunk)] for the i-th chunk of the stream. *)
Definition write (t : Transfer) (destination : Path) (i : nat)
    (chunk : list Byte.byte) : M unit :=
  match write_error t i with
  | Some e => raise e
  | None =>
      fun w =>
        (Returned tt,
         set_fs (alter (fun old => (old ++ chunk)%list) destination) w)
  end.

(** [for chunk in response.iter_content(chunk_size=8192): if chunk: f.write(chunk)]
    (the progress bar goes to the error stream, which is not modelled). *)
Fixpoint write_chunks (t : Transfer) (destination : Path) (r : Response)
    (i : nat) (rest : list (list Byte.byte)) : M unit :=
  match rest with
  | [] => match stream_error r with
          | Some e => raise e
          | None => ret tt
          end
  | chunk :: rest' =>
      match chunk with
      | [] => write_chunks t destination r (S i) rest'
      | _ => write t destination i chunk ;;;
             write_chunks t destination r (S i) rest'
      end
  end.

(** The body of the [try] block. *)
Definition transfer (url : string) (destination : Path) : M bool :=
  t <- next_transfer url destination ;;
  response <- requests_get t url ;;
  raise_for_status url response ;;;
  total_size <- total_size_of response ;;
  open_wb t destination ;;;
  write_chunks t destination response 0 (chunks response) ;;;
  print ("  ✓ Downloaded to " +:+ destination) ;;;
  ret true.

(** [description or destination.name] *)
Definition description_or_name (description : option string) (destination : Path)
    : string :=
  match description with
  | None | Some "" => path_name destination
  | Some d => d
  end.

Definition download_file (url : string) (destination : Path)
    (description : option string) : M bool :=
  present <- path_exists destination ;;
  if present : bool then
    print ("  ✓ " +:+ path_name destination +:+ " already exists, skipping") ;;;
    ret true
  else
    print ("  → Downloading " +:+ description_or_name description destination +:+ "...") ;;;
    print ("    URL: " +:+ url) ;;;
    try_except
      (transfer url destination)
      (fun e =>
         print ("  ✗ Error downloading " +:+ path_name destination +:+ ": " +:+ exc_msg e) ;;;
         present <- path_exists destination ;;
         (if present : bool then unlink destination else ret tt) ;;;
         ret false).

(** ** Fetch one pack *)

(** [f"{file_name} ({size})"] *)
Definition describe (key : string) (file_info : FileEntry) : string :=
  key +:+ " (" +:+ get_size "unknown size" file_info +:+ ")".

(** The loop over [pack['files'].items()], with the running flag
    [success]. *)
Fixpoint main_files_loop (skip_optional : bool) (items : Group) (success : bool)
    : M bool :=
  match items with
  | [] => ret success
  | (file_name, file_info) :: rest =>
      if skip_optional && get_optional file_info then
        print ("  ⊘ Skipping optional file: " +:+ file_name) ;;;
        main_files_loop skip_optional rest success
      else
        ok <- download_file (fi_url file_info) (fi_path file_info)
                            (Some (describe file_name file_info)) ;;
        note_call MainFiles file_name file_info ok ;;;
        main_files_loop skip_optional rest
          (if negb ok then
             if negb (get_optional file_info) then false else success
           else success)
  end.

(** The loops over [pack['loras'].items()] and [pack['controlnet'].items()]
    have the same text up to the word printed for a skipped entry
    ([what]); the result of [download_file] is dropped. *)
Fixpoint extras_loop (site : Site) (what : string) (skip_optional : bool)
    (items : Group) : M unit :=
  match items with
  | [] => ret tt
  | (key, info) :: rest =>
      if skip_optional && get_optional info then
        print ("  ⊘ Skipping optional " +:+ what +:+ ": " +:+ key) ;;;
        extras_loop site what skip_optional rest
      else
        ok <- download_file (fi_url info) (fi_path info) (Some (describe key info)) ;;
        note_call site key info ok ;;;
        extras_loop site what skip_optional rest
  end.

(** [if 'loras' in pack and not skip_loras: ...] *)
Definition loras_stage (pack : Pack) (skip_optional skip_loras : bool) : M unit :=
  match pk_loras pack with
  | Some loras =>
      if negb skip_loras then
        print (nl +:+ "🎨 LoRA files:") ;;;
        extras_loop Loras "LoRA" skip_optional loras
      else ret tt
  | None => ret tt
  end.

(** [if 'controlnet' in pack and not skip_controlnet: ...] *)
Definition controlnet_stage (pack : Pack) (skip_optional skip_controlnet : bool)
    : M unit :=
  match pk_controlnet pack with
  | Some controlnet =>
      if negb skip_controlnet then
        print (nl +:+ "🎮 ControlNet files:") ;;;
        extras_loop Controlnet "ControlNet" skip_optional controlnet
      else ret tt
  | None => ret tt
  end.

(** The part of [download_model_pack] after the lookup. *)
Definition download_pack (pack : Pack)
    (skip_optional skip_loras skip_controlnet : bool) : M bool :=
  print (nl +:+ str_repeat "=" 60) ;;;
  print ("Downloading: " +:+ pk_name pack) ;;;
  print ("Description: " +:+ pk_description pack) ;;;
  print (str_repeat "=" 60 +:+ nl) ;;;
  print "📦 Main model files:" ;;;
  success <- main_files_loop skip_optional (pk_files pack) true ;;
  loras_stage pack skip_optional skip_loras ;;;
  controlnet_stage pack skip_optional skip_controlnet ;;;
  print (nl +:+ str_repeat "=" 60) ;;;
  (if success : bool then
     print ("✅ Model pack '" +:+ pk_name pack +:+ "' downloaded successfully!")
   else
     print ("⚠️  Model pack '" +:+ pk_name pack +:+ "' downloaded with some errors")) ;;;
  print (str_repeat "=" 60 +:+ nl) ;;;
  ret success.

Definition download_model_pack (pack_name : string)
    (skip_optional skip_loras skip_controlnet : bool) : M bool :=
  match assoc pack_name MODEL_PACKS with
  | None =>
      print ("Error: Model pack '" +:+ pack_name +:+ "' not found") ;;;
      print ("Available packs: " +:+ join ", " (keys MODEL_PACKS)) ;;;
      ret false
  | Some pack => download_pack pack skip_optional skip_loras skip_controlnet
  end.

(** ** Listing *)

(** [len(pack.get(group, {}))] *)
Definition group_len (g : option Group) : nat := length (default [] g).

(** [float(f.get('size', '0 GB').split()[0])] for the entries whose label
    contains ['GB'], summed from 0 in the order of the group. *)
Fixpoint total_size_sum (entries : list FileEntry) (acc : Q) : M Q :=
  match entries with
  | [] => ret acc
  | f :: rest =>
      if str_contains "GB" (get_size "" f) then
        token <- first_token (get_size "0 GB" f) ;;
        x <- py_float token ;;
        total_size_sum rest (acc + x)%Q
      else total_size_sum rest acc
  end.

(** One turn of the loop over [MODEL_PACKS.items()]. *)
Definition list_pack (pack_name : string) (pack : Pack) : M unit :=
  print (nl +:+ "🔹 " +:+ pack_name) ;;;
  print ("   Name: " +:+ pk_name pack) ;;;
  print ("   Description: " +:+ pk_description pack) ;;;
  let main_files := length (pk_files pack) in
  let loras := group_len (pk_loras pack) in
  let controlnets := group_len (pk_controlnet pack) in
  print_noend ("   Includes: " +:+ pretty main_files +:+ " main files") ;;;
  (if (0 <? loras)%nat then print_noend (", " +:+ pretty loras +:+ " LoRAs")
   else ret tt) ;;;
  (if (0 <? controlnets)%nat then
     print_noend (", " +:+ pretty controlnets +:+ " ControlNets")
   else ret tt) ;;;
  print "" ;;;
  total_size <- total_size_sum (map snd (pk_files pack)) 0%Q ;;
  print ("   Estimated size: ~" +:+ format_1f total_size +:+ " GB").

Fixpoint list_packs_loop (items : list (string * Pack)) : M unit :=
  match items with
  | [] => ret tt
  | (pack_name, pack) :: rest =>
      list_pack pack_name pack ;;;
      list_packs_loop rest
  end.

Definition list_model_packs : M unit :=
  print (nl +:+ "📋 Available Model Packs:" +:+ nl) ;;;
  print (str_repeat "=" 80) ;;;
  list_packs_loop MODEL_PACKS ;;;
  print (nl +:+ str_repeat "=" 80 +:+ nl).

(** ** Command line *)

(** The command line after tokenising: the positional word and the three
    [store_true] flags. *)
Record CommandLine := {
  arg_pack : string;
  arg_skip_optional : bool;
  arg_skip_loras : bool;
  arg_skip_controlnet : bool
}.

(** [choices=list(MODEL_PACKS.keys()) + ['list']] *)
Definition choices : list string := keys MODEL_PACKS ++ ["list"].

(** [parser.parse_args()]: a positional word outside [choices] is an
    error of the parser. *)
Definition parse_args (cl : CommandLine) : option CommandLine :=
  if existsb (String.eqb (arg_pack cl)) choices then Some cl else None.

(** The [__main__] block, giving the exit status of the process: 2 when
    the parser rejects the command line, 1 for an uncaught exception,
    and otherwise what [sys.exit] is given (0 when the block runs off
    its end). *)
Definition main (cl : CommandLine) (w : World) : nat * World :=
  match parse_args cl with
  | None => (2, w)
  | Some args =>
      if String.eqb (arg_pack args) "list" then
        match list_model_packs w with
        | (Returned _, w') => (0, w')
        | (Raised _, w') => (1, w')
        end
      else
        match download_model_pack (arg_pack args) (arg_skip_optional args)
                (arg_skip_loras args) (arg_skip_controlnet args) w with
        | (Returned success, w') => (if success : bool then 0 else 1, w')
        | (Raised _, w') => (1, w')
        end
  end.

(** ** Fetch one file, with signals about *)

Variable hazards : HazardEnv.

(** What the surroundings hold for the transfer about to be made. *)
Definition next_hazards (url : string) (destination : Path) : MS Hazards :=
  fun w => (Normal (hazards (length (requests w)) url destination), w).

(** The body of the [try] block: a signal that arrives while the request
    waits leaves the body at once; without one the body runs as
    [transfer]. *)
Definition transfer_under_hazards (h : Hazards) (url : string)
    (destination : Path) : MS bool :=
  match signal_in_get h with
  | Some s => fun w => (Propagated (OfSignal s), add_request url w)
  | None => lift (transfer url destination)
  end.

(** [destination.unlink()], which the disk may refuse. *)
Definition unlink_under_hazards (h : Hazards) (p : Path) : MS unit :=
  match unlink_error h with
  | Some e => fun w => (Propagated (OfException e), w)
  | None => lift (unlink p)
  end.

(** [download_file], statement by statement as above, with the clause
    of the source, [except Exception], and its unguarded [unlink]. *)
Definition download_file_under_hazards (url : string) (destination : Path)
    (description : option string) : MS bool :=
  (h <- next_hazards url destination ;;
   present <- lift (path_exists destination) ;;
   if present : bool then
     lift (print ("  ✓ " +:+ path_name destination +:+ " already exists, skipping")) ;;;
     ret_s true
   else
     lift (print ("  → Downloading "
                  +:+ description_or_name description destination +:+ "...")) ;;;
     lift (print ("    URL: " +:+ url)) ;;;
     try_except_Exception
       (transfer_under_hazards h url destination)
       (fun e =>
          lift (print ("  ✗ Error downloading " +:+ path_name destination +:+ ": "
                       +:+ exc_msg e)) ;;;
          present <- lift (path_exists destination) ;;
          (if present : bool then unlink_under_hazards h destination
           else ret_s tt) ;;;
          ret_s false))%sig.

(** ** Vocabulary for the properties *)

(** What a run from [w] to [w'] added to the ghost record and to the
    log of requests. *)
Definition new_calls (w w' : World) : list Call :=
  drop (length (calls w)) (calls w').

Definition new_requests (w w' : World) : list string :=
  drop (length (requests w)) (requests w').

Definition new_stdout (w w' : World) : list string :=
  drop (length (stdout w)) (stdout w').

(** The entries of a group that are not passed over by
    [skip_optional and info.get('optional', False)]. *)
Definition attempted (skip_optional : bool) (items : Group) : Group :=
  List.filter (fun kv => negb (skip_optional && get_optional (snd kv))) items.

Definition call_plan (c : Call) : Site * string * FileEntry :=
  (call_site c, call_key c, call_entry c).

Definition planned (site : Site) (skip_optional : bool) (items : Group)
    : list (Site * string * FileEntry) :=
  map (fun kv => (site, fst kv, snd kv)) (attempted skip_optional items).

(** The calls of [download_file] that one run on a pack is to make, in
    order. *)
Definition planned_pack (pack : Pack)
    (skip_optional skip_loras skip_controlnet : bool)
    : list (Site * string * FileEntry) :=
  planned MainFiles skip_optional (pk_files pack)
  ++ match pk_loras pack with
     | Some loras => if skip_loras then [] else planned Loras skip_optional loras
     | None => []
     end
  ++ match pk_controlnet pack with
     | Some controlnet =>
         if skip_controlnet then [] else planned Controlnet skip_optional controlnet
     | None => []
     end.

(** How the world moves while [new] calls of [download_file] are made:
    the ghost record and the request log grow, no file disappears, a
    call that returned true leaves its destination on disk, and nothing
    is requested or written when every destination is there already. *)
Definition Progress (w w' : World) (new : list Call) : Prop :=
  calls w' = calls w ++ new
  /\ (exists reqs, requests w' = requests w ++ reqs)
  /\ (forall p, is_Some (fs w !! p) -> is_Some (fs w' !! p))
  /\ (forall c, In c new -> call_result c = true ->
      is_Some (fs w' !! fi_path (call_entry c)))
  /\ ((forall c, In c new -> is_Some (fs w !! fi_path (call_entry c))) ->
      fs w' = fs w /\ requests w' = requests w).

(** The group that a call site iterates. *)
Definition group_of (pack : Pack) (site : Site) : Group :=
  match site with
  | MainFiles => pk_files pack
  | Loras => default [] (pk_loras pack)
  | Controlnet => default [] (pk_controlnet pack)
  end.

(** Running the same pack command from [w] and then again from where
    the first run ended: the second run issues no request. *)
Definition second_run_is_silent (pack_name : string)
    (skip_optional skip_loras skip_controlnet : bool) (w : World) : Prop :=
  let w1 := snd (download_model_pack pack_name skip_optional skip_loras
                   skip_controlnet w) in
  let w2 := snd (download_model_pack pack_name skip_optional skip_loras
                   skip_controlnet w1) in
  new_requests w1 w2 = [].

(** The world after some more texts have been printed. *)
Definition emit (texts : list string) (w : World) : World :=
  {| fs := fs w; stdout := stdout w ++ texts;
     requests := requests w; calls := calls w |}.

(** A label that mentions ['GB'] and the number read from its first
    word. *)
Definition is_gb_label (f : FileEntry) : bool := str_contains "GB" (get_size "" f).

Definition numeric_portion (f : FileEntry) : Q :=
  default 0%Q (parse_float (take_token (skip_spaces (get_size "0 GB" f)))).

(** Whether [float(...split()[0])] succeeds on an entry that is summed. *)
Definition label_reads (f : FileEntry) : bool :=
  if is_gb_label f then
    match skip_spaces (get_size "0 GB" f) with
    | EmptyString => false
    | s => bool_decide (is_Some (parse_float (take_token s)))
    end
  else true.

(** The sum of the numeric portions of the gigabyte-scale labels of some
    entries; other labels contribute nothing. *)
Definition gb_total (entries : list FileEntry) : Q :=
  fold_left Qplus (map numeric_portion (List.filter is_gb_label entries)) 0%Q.

(** The texts that the listing prints for one pack. *)
Definition pack_report (pack_name : string) (pack : Pack) : list string :=
  [ (nl +:+ "🔹 " +:+ pack_name) +:+ nl;
    ("   Name: " +:+ pk_name pack) +:+ nl;
    ("   Description: " +:+ pk_description pack) +:+ nl;
    "   Includes: " +:+ pretty (length (pk_files pack)) +:+ " main files" ]
  ++ (if (0 <? group_len (pk_loras pack))%nat
      then [", " +:+ pretty (group_len (pk_loras pack)) +:+ " LoRAs"] else [])
  ++ (if (0 <? group_len (pk_controlnet pack))%nat
      then [", " +:+ pretty (group_len (pk_controlnet pack)) +:+ " ControlNets"]
      else [])
  ++ [ nl;
       ("   Estimated size: ~" +:+ format_1f (gb_total (map snd (pk_files pack)))
        +:+ " GB") +:+ nl ].

(** The listing as the specification words it.  Its data model gives a
    pack three groups; the counts of all three are printed for each
    pack, and the estimate sums the numeric portion of any
    gigabyte-scale label of the pack. *)
Definition all_entries (pack : Pack) : list FileEntry :=
  map snd (pk_files pack ++ default [] (pk_loras pack)
           ++ default [] (pk_controlnet pack)).

Definition counts_as_worded (w : World) : Prop :=
  forall pack_name pack,
    In (pack_name, pack) MODEL_PACKS ->
    let texts := new_stdout w (snd (list_pack pack_name pack w)) in
    (exists t, In t texts /\ str_contains "LoRA" t = true)
    /\ (exists t, In t texts /\ str_contains "ControlNet" t = true).

Definition total_as_worded (w : World) : Prop :=
  forall pack_name pack,
    In (pack_name, pack) MODEL_PACKS ->
    exists total,
      fst (total_size_sum (map snd (pk_files pack)) 0%Q w) = Returned total
      /\ (total == gb_total (all_entries pack))%Q.

(** ** Vocabulary for the further properties *)

(** The statuses on which [raise_for_status] raises. *)
Definition status_is_error (status : nat) : bool :=
  (400 <=? status)%nat && (status <? 600)%nat.

Definition is_none {A} (o : option A) : bool :=
  match o with
  | None => true
  | Some _ => false
  end.

(** Whether every [f.write] of the chunk loop goes through, from the
    i-th chunk on; an empty chunk is not written. *)
Fixpoint writes_ok (t : Transfer) (i : nat) (rest : list (list Byte.byte)) : bool :=
  match rest with
  | [] => true
  | chunk :: rest' =>
      match chunk with
      | [] => true
      | _ => is_none (write_error t i)
      end && writes_ok t (S i) rest'
  end.

(** What has to go right for one transfer: an answer, a status outside
    400..599, a length header that [int] reads (or none), the
    destination opened, every chunk written, the stream read to its end. *)
Definition transfer_ok (t : Transfer) : bool :=
  match get_result t with
  | inl _ => false
  | inr r =>
      negb (status_is_error (status_code r))
      && match content_length r with
         | LengthMalformed => false
         | _ => true
         end
      && is_none (open_error t)
      && writes_ok t 0 (chunks r)
      && is_none (stream_error r)
  end.

(** The bytes that the hosts deliver for one transfer. *)
Definition body_of (t : Transfer) : list Byte.byte :=
  match get_result t with
  | inl _ => []
  | inr r => concat (chunks r)
  end.

(** The two lines that announce a transfer. *)
Definition announcement (url : string) (destination : Path)
    (description : option string) : list string :=
  [ ("  → Downloading " +:+ description_or_name description destination +:+ "...")
    +:+ nl;
    ("    URL: " +:+ url) +:+ nl ].

(** What a run that makes the calls [new] leaves alone: a file that is
    on disk keeps its content; every request is for the entry of a call
    whose destination was missing at the start, and there are no more
    requests than calls; a file that appears is the destination of a
    call that returned true; a call whose destination was there at the
    start returns true; what was printed stays printed. *)
Definition Careful (w w' : World) (new : list Call) : Prop :=
  (forall p content, fs w !! p = Some content -> fs w' !! p = Some content)
  /\ (exists reqs,
        requests w' = requests w ++ reqs
        /\ length reqs <= length new
        /\ forall u, In u reqs ->
             exists c, In c new /\ fi_url (call_entry c) = u
                       /\ fs w !! fi_path (call_entry c) = None)
  /\ (forall p, is_Some (fs w' !! p) ->
        is_Some (fs w !! p)
        \/ exists c, In c new /\ fi_path (call_entry c) = p /\ call_result c = true)
  /\ (forall c, In c new -> is_Some (fs w !! fi_path (call_entry c)) ->
        call_result c = true)
  /\ (exists texts, stdout w' = stdout w ++ texts).

(** The lines that open and close the report of a run on a pack. *)
Definition banner (pack : Pack) : list string :=
  [ (nl +:+ str_repeat "=" 60) +:+ nl;
    ("Downloading: " +:+ pk_name pack) +:+ nl;
    ("Description: " +:+ pk_description pack) +:+ nl;
    (str_repeat "=" 60 +:+ nl) +:+ nl;
    "📦 Main model files:" +:+ nl ].

Definition closing (pack : Pack) (success : bool) : list string :=
  [ (nl +:+ str_repeat "=" 60) +:+ nl;
    (if success
     then ("✅ Model pack '" +:+ pk_name pack +:+ "' downloaded successfully!") +:+ nl
     else ("⚠️  Model pack '" +:+ pk_name pack +:+ "' downloaded with some errors")
          +:+ nl);
    (str_repeat "=" 60 +:+ nl) +:+ nl ].

(** A call of [download_file] that hands a boolean to its caller. *)
Definition never_propagates (url : string) (destination : Path)
    (description : option string) (w : World) : Prop :=
  exists b w',
    download_file_under_hazards url destination description w = (Normal b, w').

(** * Properties *)

(** ** Stepping through the monad *)

Lemma bind_returned {A B} (m : M A) (k : A -> M B) w a w1 :
  m w = (Returned a, w1) -> bind m k w = k a w1.
Proof. intros H. unfold bind. now rewrite H. Qed.

Lemma print_run s w : print s w = (Returned tt, add_stdout (s +:+ nl) w).
Proof. reflexivity. Qed.

(** ** The transfer *)

(** Whether the chunk loop raises is decided by the environment alone. *)
Lemma write_chunks_verdict t destination r rest :
  forall i w1 w2,
    fst (write_chunks t destination r i rest w1)
    = fst (write_chunks t destination r i rest w2).
Proof.
  induction rest as [|chunk rest IH]; intros i w1 w2; simpl.
  - destruct (stream_error r); reflexivity.
  - destruct chunk as [|b chunk]; [apply IH|].
    unfold bind, write. destruct (write_error t i); simpl; [reflexivity|].
    apply IH.
Qed.

(** The chunk loop writes to the destination only, and keeps it. *)
Lemma write_chunks_frame t destination r rest :
  forall i w, exists res w',
    write_chunks t destination r i rest w = (res, w')
    /\ stdout w' = stdout w /\ requests w' = requests w /\ calls w' = calls w
    /\ (forall p, p <> destination -> fs w' !! p = fs w !! p)
    /\ (is_Some (fs w !! destination) -> is_Some (fs w' !! destination)).
Proof.
  induction rest as [|chunk rest IH]; intros i w; simpl.
  - destruct (stream_error r); eexists _, w; repeat split; auto.
  - destruct chunk as [|b chunk]; [apply IH|].
    unfold bind, write. destruct (write_error t i) as [e|]; simpl.
    + eexists _, w; repeat split; auto.
    + destruct (IH (S i) (set_fs (alter (fun old => (old ++ b :: chunk)%list) destination) w))
        as (res & w' & Hrun & Hout & Hreq & Hcalls & Hother & Hkeep).
      exists res, w'. rewrite Hrun. repeat split; auto.
      * intros p Hp. rewrite (Hother p Hp). simpl. now apply lookup_alter_ne.
      * intros Hsome. apply Hkeep. simpl. rewrite lookup_alter_eq.
        now apply fmap_is_Some.
Qed.

(** One run of the [try] body: exactly one request goes out, only the
    destination is written, and a normal return leaves it in place. *)
Lemma transfer_frame url destination w :
  exists res w',
    transfer url destination w = (res, w')
    /\ requests w' = requests w ++ [url] /\ calls w' = calls w
    /\ (exists lines, stdout w' = stdout w ++ lines)
    /\ (forall p, p <> destination -> fs w' !! p = fs w !! p)
    /\ match res with
       | Returned b => b = true /\ is_Some (fs w' !! destination)
       | Raised _ => True
       end.
Proof.
  unfold transfer, bind at 1, next_transfer.
  set (t := env (length (requests w)) url destination).
  unfold bind at 1, requests_get.
  destruct (get_result t) as [e|r].
  { eexists _, _; split; [reflexivity|]. simpl. repeat split; auto.
    exists []. now rewrite app_nil_r. }
  unfold bind at 1.
  assert (Hquiet : forall (e : PyExc), exists res w',
            (Raised e : Result bool, add_request url w) = (res, w')
            /\ requests w' = requests w ++ [url] /\ calls w' = calls w
            /\ (exists lines, stdout w' = stdout w ++ lines)
            /\ (forall p, p <> destination -> fs w' !! p = fs w !! p)
            /\ match res with
               | Returned b => b = true /\ is_Some (fs w' !! destination)
               | Raised _ => True
               end).
  { intros e. eexists _, _; split; [reflexivity|]. simpl. repeat split; auto.
    exists []. now rewrite app_nil_r. }
  unfold raise_for_status.
  destruct ((400 <=? status_code r)%nat && (status_code r <? 500)%nat); [apply Hquiet|].
  destruct ((500 <=? status_code r)%nat && (status_code r <? 600)%nat); [apply Hquiet|].
  unfold ret at 1. unfold bind at 1, total_size_of.
  destruct (content_length r) as [| |n]; [|apply Hquiet|];
    (unfold ret at 1; unfold bind at 1, open_wb;
     destruct (open_error t) as [e|]; [apply Hquiet|]).
  all: destruct (write_chunks_frame t destination r (chunks r) 0
                   (set_fs (<[destination := []]>) (add_request url w)))
         as (res & w' & Hrun & Hout & Hreq & Hcalls & Hother & Hkeep).
  all: unfold bind at 1; rewrite Hrun.
  all: assert (Hdest : is_Some (fs w' !! destination))
         by (apply Hkeep; simpl; rewrite lookup_insert_eq; eauto).
  all: assert (Hothers : forall p, p <> destination -> fs w' !! p = fs w !! p)
         by (intros p Hp; rewrite (Hother p Hp); simpl; now apply lookup_insert_ne).
  all: destruct res as [[]|e].
  all: eexists _, _; (split; [reflexivity|]); simpl; rewrite ?Hreq, ?Hcalls, ?Hout; simpl.
  all: repeat split; eauto.
  all: exists []; now rewrite app_nil_r.
Qed.

(** The [try] body, one outcome at a time. *)
Lemma transfer_eq url destination w :
  transfer url destination w =
  let t := env (length (requests w)) url destination in
  let w1 := add_request url w in
  match get_result t with
  | inl e => (Raised e, w1)
  | inr r =>
      match raise_for_status url r w1 with
      | (Raised e, _) => (Raised e, w1)
      | (Returned _, _) =>
          match total_size_of r w1 with
          | (Raised e, _) => (Raised e, w1)
          | (Returned _, _) =>
              match open_error t with
              | Some e => (Raised e, w1)
              | None =>
                  match write_chunks t destination r 0 (chunks r)
                          (set_fs (<[destination := []]>) w1) with
                  | (Raised e, w3) => (Raised e, w3)
                  | (Returned _, w3) =>
                      (Returned true,
                       add_stdout ("  ✓ Downloaded to " +:+ destination +:+ nl) w3)
                  end
              end
          end
      end
  end.
Proof.
  unfold transfer, bind, next_transfer, requests_get. cbv zeta.
  destruct (get_result _) as [e|r]; [reflexivity|].
  unfold raise_for_status, total_size_of, open_wb, raise, ret.
  destruct (_ && _); [reflexivity|]. destruct (_ && _); [reflexivity|].
  destruct (content_length r); try reflexivity;
    destruct (open_error _); try reflexivity;
    destruct (write_chunks _ _ _ _ _ _) as [[[]|e] w3]; reflexivity.
Qed.

(** Whether the [try] body raises depends on the world only through the
    number of requests made so far. *)
Lemma transfer_verdict url destination w1 w2 :
  requests w1 = requests w2 ->
  fst (transfer url destination w1) = fst (transfer url destination w2).
Proof.
  intros Hreq. rewrite !transfer_eq, Hreq. cbv zeta.
  destruct (get_result _) as [e|r]; [reflexivity|].
  unfold raise_for_status, total_size_of, raise, ret.
  destruct (_ && _); [reflexivity|]. destruct (_ && _); [reflexivity|].
  destruct (content_length r); try reflexivity.
  all: destruct (open_error _); try reflexivity.
  all: match goal with
       | |- fst (match write_chunks ?t ?d ?r ?i ?c ?wa with _ => _ end)
            = fst (match write_chunks _ _ _ _ _ ?wb with _ => _ end) =>
           pose proof (write_chunks_verdict t d r c i wa wb) as Hv;
           destruct (write_chunks t d r i c wa) as [res1 wa'];
           destruct (write_chunks t d r i c wb) as [res2 wb']
       end.
  all: simpl in Hv; subst res2; destruct res1 as [[]|e]; reflexivity.
Qed.

(** ** Fetch one file: what every call does *)

Lemma download_file_spec url destination description w :
  exists b w',
    download_file url destination description w = (Returned b, w')
    /\ calls w' = calls w
    /\ (exists lines, stdout w' = stdout w ++ lines)
    /\ (is_Some (fs w !! destination) ->
        b = true /\ fs w' = fs w /\ requests w' = requests w)
    /\ (fs w !! destination = None ->
        requests w' = requests w ++ [url]
        /\ (forall p, p <> destination -> fs w' !! p = fs w !! p)
        /\ (b = true -> is_Some (fs w' !! destination))
        /\ (b = false -> fs w' !! destination = None)
        /\ (b = false <-> exists e, fst (transfer url destination w) = Raised e)).
Proof.
  unfold download_file, bind at 1, path_exists.
  destruct (fs w !! destination) as [content|] eqn:Hdest.
  - rewrite bool_decide_eq_true_2 by eauto.
    eexists _, _; split; [reflexivity|]. simpl.
    split; [reflexivity|]. split; [eexists; reflexivity|].
    split; [auto|]. intros Habs; discriminate.
  - rewrite bool_decide_eq_false_2 by (intros [? ?]; discriminate).
    unfold bind at 1. rewrite print_run. unfold bind at 1. rewrite print_run.
    set (w2 := add_stdout _ (add_stdout _ w)).
    assert (Hv : fst (transfer url destination w) = fst (transfer url destination w2))
      by (apply transfer_verdict; reflexivity).
    destruct (transfer_frame url destination w2)
      as (res & w3 & Hrun & Hreq & Hcalls & (lines & Hout) & Hother & Hres).
    rewrite Hrun in Hv. simpl in Hv.
    unfold try_except. rewrite Hrun.
    destruct res as [b|e].
    + destruct Hres as [-> Hkept].
      exists true, w3. split; [reflexivity|].
      split; [exact Hcalls|]. split.
      { eexists. rewrite Hout. simpl. rewrite <- !app_assoc. reflexivity. }
      split; [intros [? ?]; discriminate|]. intros _.
      split; [exact Hreq|]. split; [exact Hother|].
      split; [auto|]. split; [discriminate|].
      split; [discriminate|]. intros [e He]. rewrite Hv in He. discriminate.
    + unfold bind at 1. rewrite print_run. unfold bind at 1. simpl.
      assert (Hfinal : forall w4 : World,
                 calls w4 = calls w3 -> requests w4 = requests w3 ->
                 (exists more, stdout w4 = stdout w3 ++ more) ->
                 fs w4 = delete destination (fs w3) ->
                 exists b w',
                   (Returned false, w4) = (Returned b, w')
                   /\ calls w' = calls w
                   /\ (exists lines, stdout w' = stdout w ++ lines)
                   /\ (is_Some (None : option (list Byte.byte)) ->
                       b = true /\ fs w' = fs w /\ requests w' = requests w)
                   /\ (None = (None : option (list Byte.byte)) ->
                       requests w' = requests w ++ [url]
                       /\ (forall p, p <> destination -> fs w' !! p = fs w !! p)
                       /\ (b = true -> is_Some (fs w' !! destination))
                       /\ (b = false -> fs w' !! destination = None)
                       /\ (b = false <->
                           exists e, fst (transfer url destination w) = Raised e))).
      { intros w4 Hc4 Hr4 (more & Ho4) Hf4.
        exists false, w4. split; [reflexivity|].
        split; [rewrite Hc4, Hcalls; reflexivity|]. split.
        { eexists. rewrite Ho4, Hout. simpl. rewrite <- !app_assoc. reflexivity. }
        split; [intros [? ?]; discriminate|]. intros _.
        split; [rewrite Hr4; exact Hreq|]. split.
        { intros p Hp. rewrite Hf4, lookup_delete_ne by congruence. now apply Hother. }
        split; [discriminate|]. split.
        { intros _. rewrite Hf4. apply lookup_delete_eq. }
        split; [|reflexivity]. intros _. exists e. now rewrite Hv. }
      destruct (fs w3 !! destination) as [partial|] eqn:Hpartial.
      * rewrite bool_decide_eq_true_2 by eauto.
        unfold bind at 1, unlink. simpl. rewrite Hpartial.
        apply Hfinal; simpl; auto. eexists; reflexivity.
      * rewrite bool_decide_eq_false_2 by (intros [? ?]; discriminate).
        apply Hfinal; simpl; auto; [eexists; reflexivity|].
        symmetry. now apply delete_id.
Qed.

(** ** Progress of the world *)

Lemma Progress_refl w : Progress w w [].
Proof.
  unfold Progress. rewrite app_nil_r. repeat split; auto.
  - exists []. now rewrite app_nil_r.
  - intros c [].
Qed.

Lemma Progress_print s w : Progress w (add_stdout s w) [].
Proof.
  unfold Progress. simpl. rewrite app_nil_r. repeat split; auto.
  - exists []. now rewrite app_nil_r.
  - intros c [].
Qed.

Lemma Progress_trans w w1 w2 n1 n2 :
  Progress w w1 n1 -> Progress w1 w2 n2 -> Progress w w2 (n1 ++ n2).
Proof.
  intros (Hc1 & (r1 & Hr1) & Hm1 & Hk1 & Hs1) (Hc2 & (r2 & Hr2) & Hm2 & Hk2 & Hs2).
  unfold Progress. split; [|split; [|split; [|split]]].
  - rewrite Hc2, Hc1. now rewrite app_assoc.
  - exists (r1 ++ r2). rewrite Hr2, Hr1. now rewrite app_assoc.
  - auto.
  - intros c Hin Hres. apply in_app_or in Hin as [Hin|Hin]; auto.
  - intros Hall.
    destruct Hs1 as [Hfs1 Hrq1]; [intros c Hin; apply Hall, in_or_app; auto|].
    destruct Hs2 as [Hfs2 Hrq2].
    { intros c Hin. rewrite Hfs1. apply Hall, in_or_app; auto. }
    split; congruence.
Qed.

(** One call of [download_file] from a loop, with its ghost note. *)
Lemma fetch_step {A} site key info description (k : bool -> M A) w :
  exists ok w',
    bind (download_file (fi_url info) (fi_path info) description)
         (fun ok => bind (note_call site key info ok) (fun _ => k ok)) w
    = k ok w'
    /\ Progress w w' [{| call_site := site; call_key := key;
                         call_entry := info; call_result := ok |}].
Proof.
  destruct (download_file_spec (fi_url info) (fi_path info) description w)
    as (ok & w1 & Hrun & Hcalls & _ & Hpresent & Habsent).
  exists ok, (add_call {| call_site := site; call_key := key;
                          call_entry := info; call_result := ok |} w1).
  split; [unfold bind; rewrite Hrun; reflexivity|].
  unfold Progress. simpl. rewrite Hcalls.
  split; [reflexivity|].
  destruct (fs w !! fi_path info) as [content|] eqn:Hdest.
  - destruct Hpresent as (-> & Hfs & Hreq); [eauto|].
    rewrite Hfs, Hreq. split; [exists []; now rewrite app_nil_r|].
    split; [auto|]. split; [|auto].
    intros c [<-|[]] _. simpl. eauto.
  - destruct (Habsent eq_refl) as (Hreq & Hother & Hkept & _ & _).
    split; [eauto|]. split; [|split].
    + intros p Hp. destruct (decide (p = fi_path info)) as [->|Hne].
      * rewrite Hdest in Hp. destruct Hp; discriminate.
      * now rewrite Hother.
    + intros c [<-|[]] Hres. simpl in *. auto.
    + intros Hall. specialize (Hall _ (or_introl eq_refl)). simpl in Hall.
      rewrite Hdest in Hall. destruct Hall; discriminate.
Qed.

(** ** The loops *)

Lemma planned_cons_skip site skip_optional key info rest :
  skip_optional && get_optional info = true ->
  planned site skip_optional ((key, info) :: rest) = planned site skip_optional rest.
Proof. intros H. unfold planned, attempted. simpl. now rewrite H. Qed.

Lemma planned_cons_keep site skip_optional key info rest :
  skip_optional && get_optional info = false ->
  planned site skip_optional ((key, info) :: rest)
  = (site, key, info) :: planned site skip_optional rest.
Proof. intros H. unfold planned, attempted. simpl. now rewrite H. Qed.

Lemma main_files_loop_spec skip_optional items :
  forall success w, exists b w' new,
    main_files_loop skip_optional items success w = (Returned b, w')
    /\ Progress w w' new
    /\ map call_plan new = planned MainFiles skip_optional items
    /\ (b = true <->
        success = true
        /\ forall c, In c new -> get_optional (call_entry c) = false ->
                     call_result c = true).
Proof.
  induction items as [|[file_name file_info] rest IH]; intros success w.
  - exists success, w, []. split; [reflexivity|].
    split; [apply Progress_refl|]. split; [reflexivity|].
    split; [intros ->; split; [reflexivity|intros c []]|tauto].
  - cbn [main_files_loop].
    destruct (skip_optional && get_optional file_info) eqn:Hskip.
    + rewrite (bind_returned _ _ _ _ _ (print_run _ w)).
      destruct (IH success (add_stdout (("  ⊘ Skipping optional file: "
                                         +:+ file_name) +:+ nl) w))
        as (b & w' & new & Hrun & Hprog & Hplan & Hiff).
      exists b, w', new. split; [exact Hrun|]. split.
      { apply (Progress_trans _ _ _ [] new (Progress_print _ w) Hprog). }
      split; [|exact Hiff]. now rewrite planned_cons_skip.
    + destruct (fetch_step MainFiles file_name file_info
                  (Some (describe file_name file_info))
                  (fun ok => main_files_loop skip_optional rest
                     (if negb ok then
                        if negb (get_optional file_info) then false else success
                      else success)) w)
        as (ok & w1 & Hstep & Hprog1).
      rewrite Hstep.
      destruct (IH (if negb ok then
                      if negb (get_optional file_info) then false else success
                    else success) w1)
        as (b & w' & new & Hrun & Hprog & Hplan & Hiff).
      exists b, w', ({| call_site := MainFiles; call_key := file_name;
                        call_entry := file_info; call_result := ok |} :: new).
      split; [exact Hrun|]. split.
      { apply (Progress_trans _ _ _ [_] new Hprog1 Hprog). }
      split.
      { rewrite planned_cons_keep by exact Hskip. simpl. now rewrite Hplan. }
      rewrite Hiff. split.
      * intros [Hflag Hall]. split.
        -- destruct ok, (get_optional file_info); simpl in Hflag; auto; discriminate.
        -- intros c [<-|Hin] Hopt; [|auto]. simpl in *.
           rewrite Hopt in Hflag. destruct ok; auto.
      * intros [-> Hall]. split.
        -- destruct ok eqn:Hok; simpl; [reflexivity|].
           destruct (get_optional file_info) eqn:Hopt; simpl; [reflexivity|].
           specialize (Hall _ (or_introl eq_refl) Hopt). simpl in Hall. discriminate.
        -- intros c Hin. apply Hall. now right.
Qed.

Lemma extras_loop_spec site what skip_optional items :
  forall w, exists w' new,
    extras_loop site what skip_optional items w = (Returned tt, w')
    /\ Progress w w' new
    /\ map call_plan new = planned site skip_optional items.
Proof.
  induction items as [|[key info] rest IH]; intros w.
  - exists w, []. split; [reflexivity|].
    split; [apply Progress_refl|reflexivity].
  - cbn [extras_loop].
    destruct (skip_optional && get_optional info) eqn:Hskip.
    + rewrite (bind_returned _ _ _ _ _ (print_run _ w)).
      destruct (IH (add_stdout (("  ⊘ Skipping optional " +:+ what +:+ ": "
                                 +:+ key) +:+ nl) w))
        as (w' & new & Hrun & Hprog & Hplan).
      exists w', new. split; [exact Hrun|]. split.
      { apply (Progress_trans _ _ _ [] new (Progress_print _ w) Hprog). }
      now rewrite planned_cons_skip.
    + destruct (fetch_step site key info (Some (describe key info))
                  (fun _ => extras_loop site what skip_optional rest) w)
        as (ok & w1 & Hstep & Hprog1).
      rewrite Hstep.
      destruct (IH w1) as (w' & new & Hrun & Hprog & Hplan).
      exists w', ({| call_site := site; call_key := key;
                     call_entry := info; call_result := ok |} :: new).
      split; [exact Hrun|]. split.
      { apply (Progress_trans _ _ _ [_] new Hprog1 Hprog). }
      rewrite planned_cons_keep by exact Hskip. simpl. now rewrite Hplan.
Qed.

Lemma Progress_quiet w w' :
  fs w' = fs w -> requests w' = requests w -> calls w' = calls w ->
  Progress w w' [].
Proof.
  intros Hfs Hreq Hcalls. unfold Progress. rewrite Hfs, Hreq, Hcalls, app_nil_r.
  repeat split; auto.
  - exists []. now rewrite app_nil_r.
  - intros c [].
Qed.

Lemma planned_site site skip_optional items new :
  map call_plan new = planned site skip_optional items ->
  forall c, In c new -> call_site c = site.
Proof.
  intros Hplan c Hin.
  apply (in_map call_plan) in Hin. rewrite Hplan in Hin.
  unfold planned in Hin. apply in_map_iff in Hin as (kv & Heq & _).
  unfold call_plan in Heq. congruence.
Qed.

Lemma loras_stage_spec pack skip_optional skip_loras w :
  exists w' new,
    loras_stage pack skip_optional skip_loras w = (Returned tt, w')
    /\ Progress w w' new
    /\ map call_plan new
       = match pk_loras pack with
         | Some loras => if skip_loras then [] else planned Loras skip_optional loras
         | None => []
         end.
Proof.
  unfold loras_stage. destruct (pk_loras pack) as [loras|].
  - destruct skip_loras; simpl.
    + exists w, []. split; [reflexivity|]. split; [apply Progress_refl|reflexivity].
    + rewrite (bind_returned _ _ _ _ _ (print_run _ w)).
      destruct (extras_loop_spec Loras "LoRA" skip_optional loras
                  (add_stdout ((nl +:+ "🎨 LoRA files:") +:+ nl) w))
        as (w' & new & Hrun & Hprog & Hplan).
      exists w', new. split; [exact Hrun|]. split; [|exact Hplan].
      apply (Progress_trans _ _ _ [] new (Progress_print _ w) Hprog).
  - exists w, []. split; [reflexivity|]. split; [apply Progress_refl|reflexivity].
Qed.

Lemma controlnet_stage_spec pack skip_optional skip_controlnet w :
  exists w' new,
    controlnet_stage pack skip_optional skip_controlnet w = (Returned tt, w')
    /\ Progress w w' new
    /\ map call_plan new
       = match pk_controlnet pack with
         | Some controlnet =>
             if skip_controlnet then []
             else planned Controlnet skip_optional controlnet
         | None => []
         end.
Proof.
  unfold controlnet_stage. destruct (pk_controlnet pack) as [controlnet|].
  - destruct skip_controlnet; simpl.
    + exists w, []. split; [reflexivity|]. split; [apply Progress_refl|reflexivity].
    + rewrite (bind_returned _ _ _ _ _ (print_run _ w)).
      destruct (extras_loop_spec Controlnet "ControlNet" skip_optional controlnet
                  (add_stdout ((nl +:+ "🎮 ControlNet files:") +:+ nl) w))
        as (w' & new & Hrun & Hprog & Hplan).
      exists w', new. split; [exact Hrun|]. split; [|exact Hplan].
      apply (Progress_trans _ _ _ [] new (Progress_print _ w) Hprog).
  - exists w, []. split; [reflexivity|]. split; [apply Progress_refl|reflexivity].
Qed.

(** ** Fetch one pack: what every run does *)

Lemma download_pack_spec pack skip_optional skip_loras skip_controlnet w :
  exists b w' new,
    download_pack pack skip_optional skip_loras skip_controlnet w = (Returned b, w')
    /\ Progress w w' new
    /\ map call_plan new = planned_pack pack skip_optional skip_loras skip_controlnet
    /\ (b = true <->
        forall c, In c new -> call_site c = MainFiles ->
                  get_optional (call_entry c) = false -> call_result c = true).
Proof.
  unfold download_pack.
  do 5 (erewrite bind_returned by apply print_run).
  match goal with |- context [bind (main_files_loop _ _ _) _ ?w0] => set (w5 := w0) end.
  destruct (main_files_loop_spec skip_optional (pk_files pack) true w5)
    as (b & w6 & n1 & Hrun1 & Hprog1 & Hplan1 & Hiff).
  rewrite (bind_returned _ _ _ _ _ Hrun1).
  destruct (loras_stage_spec pack skip_optional skip_loras w6)
    as (w7 & n2 & Hrun2 & Hprog2 & Hplan2).
  rewrite (bind_returned _ _ _ _ _ Hrun2).
  destruct (controlnet_stage_spec pack skip_optional skip_controlnet w7)
    as (w8 & n3 & Hrun3 & Hprog3 & Hplan3).
  rewrite (bind_returned _ _ _ _ _ Hrun3).
  erewrite bind_returned by apply print_run.
  assert (Hmsg : forall s1 s2 w9, exists w10,
             (if b then print s1 else print s2) w9 = (Returned tt, w10)
             /\ fs w10 = fs w9 /\ requests w10 = requests w9 /\ calls w10 = calls w9).
  { intros s1 s2 w9. destruct b; eexists; (split; [apply print_run|]); auto. }
  match goal with |- context [bind (if b then print ?s1 else print ?s2) _ ?w9] =>
    destruct (Hmsg s1 s2 w9) as (w10 & Hrun4 & Hfs4 & Hreq4 & Hcalls4)
  end.
  rewrite (bind_returned _ _ _ _ _ Hrun4).
  erewrite bind_returned by apply print_run.
  eexists b, _, (n1 ++ n2 ++ n3). split; [reflexivity|]. split; [|split].
  - assert (H05 : Progress w w5 []) by (apply Progress_quiet; reflexivity).
    pose proof (Progress_trans _ _ _ _ _ H05 Hprog1) as H06.
    pose proof (Progress_trans _ _ _ _ _ Hprog2 Hprog3) as H68.
    pose proof (Progress_trans _ _ _ _ _ H06 H68) as H08. simpl in H08.
    eapply (Progress_trans _ _ _ _ []) in H08.
    + rewrite !app_nil_r in H08. exact H08.
    + apply Progress_quiet; simpl; auto.
  - rewrite !map_app, Hplan1, Hplan2, Hplan3. reflexivity.
  - rewrite Hiff. split.
    + intros [_ Hall] c Hin Hsite Hopt.
      apply in_app_or in Hin as [Hin|Hin]; [auto|].
      apply in_app_or in Hin as [Hin|Hin]; exfalso.
      * destruct (pk_loras pack) as [loras|]; [destruct skip_loras|];
          try (destruct n2; [destruct Hin|discriminate]).
        rewrite (planned_site _ _ _ _ Hplan2 c Hin) in Hsite. discriminate.
      * destruct (pk_controlnet pack) as [controlnet|]; [destruct skip_controlnet|];
          try (destruct n3; [destruct Hin|discriminate]).
        rewrite (planned_site _ _ _ _ Hplan3 c Hin) in Hsite. discriminate.
    + intros Hall. split; [reflexivity|]. intros c Hin Hopt.
      apply Hall; [apply in_or_app; auto| |exact Hopt].
      apply (planned_site _ _ _ _ Hplan1 c Hin).
Qed.

(** ** The listing *)

Lemma emit_emit l1 l2 w : emit l2 (emit l1 w) = emit (l1 ++ l2) w.
Proof. unfold emit. simpl. now rewrite app_assoc. Qed.

Lemma print_emit s w : print s w = (Returned tt, emit [s +:+ nl] w).
Proof. reflexivity. Qed.

Lemma print_noend_emit s w : print_noend s w = (Returned tt, emit [s] w).
Proof. reflexivity. Qed.

Lemma total_size_sum_run entries :
  forall acc w,
    forallb label_reads entries = true ->
    total_size_sum entries acc w
    = (Returned (fold_left Qplus
                   (map numeric_portion (List.filter is_gb_label entries)) acc), w).
Proof.
  induction entries as [|f rest IH]; intros acc w Hreads; [reflexivity|].
  simpl in Hreads. apply andb_prop in Hreads as [Hf Hrest].
  cbn [total_size_sum List.filter]. unfold label_reads in Hf.
  fold (is_gb_label f). destruct (is_gb_label f); [|now apply IH].
  unfold bind at 1, first_token.
  destruct (skip_spaces (get_size "0 GB" f)) as [|c s] eqn:Hskip; [discriminate|].
  unfold ret at 1. unfold bind at 1, py_float.
  apply bool_decide_eq_true_1 in Hf as [x Hx]. rewrite Hx.
  unfold ret at 1. cbn [map fold_left].
  assert (numeric_portion f = x) as ->
    by (unfold numeric_portion; now rewrite Hskip, Hx).
  now apply IH.
Qed.

Lemma list_pack_run pack_name pack w :
  forallb label_reads (map snd (pk_files pack)) = true ->
  list_pack pack_name pack w = (Returned tt, emit (pack_report pack_name pack) w).
Proof.
  intros Hreads. unfold list_pack, pack_report.
  do 3 (erewrite bind_returned by apply print_emit).
  erewrite bind_returned by apply print_noend_emit.
  rewrite !emit_emit.
  assert (Hopt : forall (b : bool) s k l w0,
             bind (if b then print_noend s else ret tt) k (emit l w0)
             = k tt (emit (l ++ (if b then [s] else [])) w0) :> Result unit * World).
  { intros [] s0 k l w0; unfold bind, print_noend, ret; simpl.
    - now rewrite <- (emit_emit l [s0] w0).
    - now rewrite app_nil_r. }
  rewrite !Hopt.
  erewrite bind_returned by apply print_emit.
  erewrite bind_returned by (apply total_size_sum_run; exact Hreads).
  rewrite print_emit, !emit_emit. fold (gb_total (map snd (pk_files pack))).
  do 2 f_equal. rewrite <- !app_assoc. reflexivity.
Qed.

Lemma list_packs_loop_run items :
  forall w,
    forallb (fun kp => forallb label_reads (map snd (pk_files (snd kp)))) items = true ->
    list_packs_loop items w
    = (Returned tt, emit (flat_map (fun kp => pack_report (fst kp) (snd kp)) items) w).
Proof.
  induction items as [|[pack_name pack] rest IH]; intros w Hreads.
  - unfold emit. simpl. rewrite app_nil_r. now destruct w.
  - simpl in Hreads. apply andb_prop in Hreads as [Hpack Hrest].
    cbn [list_packs_loop flat_map fst snd].
    erewrite bind_returned by (apply list_pack_run; exact Hpack).
    rewrite IH by exact Hrest. now rewrite emit_emit.
Qed.

(** Every gigabyte-scale label of the catalog's main files is read. *)
Lemma catalog_labels_read :
  forallb (fun kp => forallb label_reads (map snd (pk_files (snd kp)))) MODEL_PACKS
  = true.
Proof. vm_compute. reflexivity. Qed.

Lemma list_model_packs_run w :
  list_model_packs w
  = (Returned tt,
     emit ([(nl +:+ "📋 Available Model Packs:" +:+ nl) +:+ nl;
            str_repeat "=" 80 +:+ nl]
           ++ flat_map (fun kp => pack_report (fst kp) (snd kp)) MODEL_PACKS
           ++ [(nl +:+ str_repeat "=" 80 +:+ nl) +:+ nl]) w).
Proof.
  unfold list_model_packs.
  do 2 (erewrite bind_returned by apply print_emit).
  erewrite bind_returned by (apply list_packs_loop_run, catalog_labels_read).
  rewrite print_emit, !emit_emit. do 2 f_equal; rewrite <- ?app_assoc; reflexivity.
Qed.

(** ** Looking a pack up *)

Lemma assoc_None_iff {A} key (d : list (string * A)) :
  assoc key d = None <-> ~ In key (keys d).
Proof.
  induction d as [|[k v] rest IH]; simpl; [tauto|].
  destruct (String.eqb_spec key k) as [->|Hne].
  - split; [discriminate|]. intros H. exfalso. apply H. now left.
  - rewrite IH. split; [intros H [Heq|Hin]; [congruence|auto]|tauto].
Qed.

Lemma assoc_Some_In {A} key (d : list (string * A)) v :
  assoc key d = Some v -> In key (keys d).
Proof.
  intros Hsome. destruct (in_dec string_dec key (keys d)) as [Hin|Hnot]; [exact Hin|].
  apply assoc_None_iff in Hnot. congruence.
Qed.

Lemma existsb_eqb_iff x (l : list string) :
  existsb (String.eqb x) l = true <-> In x l.
Proof.
  rewrite existsb_exists. split.
  - intros (y & Hin & Heq). apply String.eqb_eq in Heq. now subst.
  - intros Hin. exists x. split; [exact Hin|apply String.eqb_refl].
Qed.

(** ['list'] is not the key of a pack. *)
Lemma list_is_not_a_key : assoc "list" MODEL_PACKS = None.
Proof. reflexivity. Qed.

Lemma new_calls_app w w' new : calls w' = calls w ++ new -> new_calls w w' = new.
Proof. intros H. unfold new_calls. rewrite H. apply drop_app_length. Qed.

Lemma new_requests_same w w' : requests w' = requests w -> new_requests w w' = [].
Proof. intros H. unfold new_requests. rewrite H. apply drop_all. Qed.

(** * The claims about fetch-one-file *)

(** C4. For every URL and every destination that is already on disk,
    [download_file] returns true, issues no request, leaves the disk as it
    is, and prints exactly the line saying that the file exists and is
    skipped. *)
Theorem download_file_skips_existing url destination description w :
  is_Some (fs w !! destination) ->
  exists w',
    download_file url destination description w = (Returned true, w')
    /\ requests w' = requests w
    /\ fs w' = fs w
    /\ stdout w'
       = stdout w ++ [("  ✓ " +:+ path_name destination
                       +:+ " already exists, skipping") +:+ nl].
Proof.
  intros Hpresent. unfold download_file, bind at 1, path_exists.
  rewrite bool_decide_eq_true_2 by exact Hpresent.
  eexists. split; [reflexivity|]. simpl.
  repeat split.
Qed.


(** Without a signal and with a disk that lets files go, the call is
    the one of [download_file]. *)
Lemma download_file_hazard_free url destination description w :
  signal_in_get (hazards (length (requests w)) url destination) = None ->
  unlink_error (hazards (length (requests w)) url destination) = None ->
  download_file_under_hazards url destination description w
  = lift (download_file url destination description) w.
Proof.
  intros Hsignal Hunlink.
  unfold download_file_under_hazards, download_file, lift, bind_s, bind,
    next_hazards, path_exists, try_except_Exception, try_except,
    transfer_under_hazards, unlink_under_hazards, ret_s, ret, print.
  rewrite Hsignal, Hunlink.
  destruct (bool_decide (is_Some (fs w !! destination))); [reflexivity|].
  unfold lift.
  destruct (transfer url destination _) as [[b|e] w3]; [reflexivity|].
  cbn [fs add_stdout].
  destruct (bool_decide (is_Some (fs w3 !! destination))); [|reflexivity].
  unfold unlink. cbn [fs add_stdout].
  destruct (fs w3 !! destination); reflexivity.
Qed.


(** * The claims about fetch-one-pack *)


(** C6. For every pack, of the catalog or not, every setting of the
    flags and every world, a run makes exactly the planned calls, and so:
    under [skip_optional] no entry whose optional flag is true is passed
    to [download_file], in any of the three groups; under [skip_loras] no
    call comes from the LoRA group, whatever the optional flags of its
    entries; under [skip_controlnet] no call comes from the ControlNet
    group, whatever the optional flags of its entries.  Every call is for
    an entry of the group its loop iterates.  [download_model_pack] does
    the same for the pack that a key of the catalog names. *)
Theorem skip_flags_exclude pack skip_optional skip_loras skip_controlnet w :
  exists b w',
    download_pack pack skip_optional skip_loras skip_controlnet w = (Returned b, w')
    /\ (forall pack_name,
          assoc pack_name MODEL_PACKS = Some pack ->
          download_model_pack pack_name skip_optional skip_loras skip_controlnet w
          = (Returned b, w'))
    /\ map call_plan (new_calls w w')
       = planned_pack pack skip_optional skip_loras skip_controlnet
    /\ (forall c, In c (new_calls w w') ->
        In (call_key c, call_entry c) (group_of pack (call_site c)))
    /\ (skip_optional = true ->
        forall c, In c (new_calls w w') -> get_optional (call_entry c) = false)
    /\ (skip_loras = true ->
        forall c, In c (new_calls w w') -> call_site c <> Loras)
    /\ (skip_controlnet = true ->
        forall c, In c (new_calls w w') -> call_site c <> Controlnet).
Proof.
  destruct (download_pack_spec pack skip_optional skip_loras skip_controlnet w)
    as (b & w' & new & Hrun & (Hcalls & _) & Hplan & _).
  exists b, w'. split; [exact Hrun|]. split.
  { intros pack_name Hpack. unfold download_model_pack. now rewrite Hpack. }
  rewrite (new_calls_app _ _ _ Hcalls). split; [exact Hplan|].
  assert (Hin : forall c, In c new ->
            In (call_plan c)
               (planned_pack pack skip_optional skip_loras skip_controlnet))
    by (intros c Hc; rewrite <- Hplan; now apply in_map).
  assert (Hplanned : forall site items p,
            In p (planned site skip_optional items) ->
            p.1.1 = site /\ In (p.1.2, p.2) items
            /\ (skip_optional = true -> get_optional p.2 = false)).
  { intros site items p Hp. unfold planned, attempted in Hp.
    apply in_map_iff in Hp as ([k info] & <- & Hf).
    apply filter_In in Hf as [Hitem Hkeep]. simpl in *.
    repeat split; auto. intros ->. now destruct (get_optional info). }
  assert (Hcases : forall c, In c new ->
            In (call_key c, call_entry c) (group_of pack (call_site c))
            /\ (skip_optional = true -> get_optional (call_entry c) = false)
            /\ (skip_loras = true -> call_site c <> Loras)
            /\ (skip_controlnet = true -> call_site c <> Controlnet)).
  { intros c Hc. specialize (Hin c Hc). unfold planned_pack in Hin.
    apply in_app_or in Hin as [Hin|Hin]; [|apply in_app_or in Hin as [Hin|Hin]].
    - apply Hplanned in Hin as (Hsite & Hitem & Hopt). simpl in *.
      rewrite Hsite. repeat split; auto; discriminate.
    - destruct (pk_loras pack) as [loras|] eqn:Hloras; [|destruct Hin].
      destruct skip_loras; [destruct Hin|].
      apply Hplanned in Hin as (Hsite & Hitem & Hopt). simpl in *.
      rewrite Hsite. simpl. rewrite Hloras. repeat split; auto; discriminate.
    - destruct (pk_controlnet pack) as [controlnet|] eqn:Hcn; [|destruct Hin].
      destruct skip_controlnet; [destruct Hin|].
      apply Hplanned in Hin as (Hsite & Hitem & Hopt). simpl in *.
      rewrite Hsite. simpl. rewrite Hcn. repeat split; auto; discriminate. }
  repeat split; intros; apply Hcases; auto.
Qed.

(** C1. For every pack of the catalog, every setting of the flags and
    every behaviour of the hosts: [download_model_pack] returns, the
    calls of [download_file] it makes are the planned ones whatever
    their results (a failure does not stop the run), and it returns true
    exactly when no call for a non-optional entry of the main files
    returned false.  The process exits with 0 when the result is true and
    with 1 when it is false; the listing exits with 0. *)
Theorem download_model_pack_result pack_name pack
    skip_optional skip_loras skip_controlnet w :
  assoc pack_name MODEL_PACKS = Some pack ->
  exists success w',
    download_model_pack pack_name skip_optional skip_loras skip_controlnet w
    = (Returned success, w')
    /\ map call_plan (new_calls w w')
       = planned_pack pack skip_optional skip_loras skip_controlnet
    /\ (success = true <->
        forall c, In c (new_calls w w') ->
                  call_site c = MainFiles ->
                  get_optional (call_entry c) = false ->
                  call_result c = true)
    /\ main {| arg_pack := pack_name; arg_skip_optional := skip_optional;
               arg_skip_loras := skip_loras;
               arg_skip_controlnet := skip_controlnet |} w
       = (if success then 0 else 1, w')
    /\ (forall o l c,
          fst (main {| arg_pack := "list"; arg_skip_optional := o;
                       arg_skip_loras := l; arg_skip_controlnet := c |} w) = 0).
Proof.
  intros Hpack.
  assert (Hrun0 : download_model_pack pack_name skip_optional skip_loras
                    skip_controlnet w
                  = download_pack pack skip_optional skip_loras skip_controlnet w)
    by (unfold download_model_pack; now rewrite Hpack).
  destruct (download_pack_spec pack skip_optional skip_loras skip_controlnet w)
    as (b & w' & new & Hrun & (Hcalls & _) & Hplan & Hiff).
  exists b, w'. rewrite (new_calls_app _ _ _ Hcalls).
  split; [now rewrite Hrun0|]. split; [exact Hplan|]. split; [exact Hiff|]. split.
  - unfold main, parse_args. cbn [arg_pack arg_skip_optional arg_skip_loras
                                  arg_skip_controlnet].
    assert (Hchoice : existsb (String.eqb pack_name) choices = true).
    { apply existsb_eqb_iff. unfold choices. apply in_or_app. left.
      eapply assoc_Some_In, Hpack. }
    rewrite Hchoice. cbn [arg_pack arg_skip_optional arg_skip_loras
                          arg_skip_controlnet].
    destruct (String.eqb_spec pack_name "list") as [->|_].
    + rewrite list_is_not_a_key in Hpack. discriminate.
    + now rewrite Hrun0, Hrun.
  - intros o l c. unfold main, parse_args.
    cbn [arg_pack]. replace (existsb (String.eqb "list") choices) with true
      by reflexivity.
    cbn [arg_pack]. rewrite String.eqb_refl, list_model_packs_run. reflexivity.
Qed.

(** C2, what the code does.  On ['sdxl'] with no flag, the calls are the
    three main files and the three LoRAs, six in all: the entry
    ['realistic_skin_ti'] that the catalog declares under ['embeddings']
    is passed over, as no loop iterates that group.  With
    [skip_optional] and [skip_loras], the calls are the checkpoint and
    the VAE. *)
Theorem sdxl_calls w :
  map (fun c => (call_site c, call_key c))
      (new_calls w (snd (download_model_pack "sdxl" false false false w)))
  = [ (MainFiles, "checkpoint"); (MainFiles, "refiner"); (MainFiles, "vae");
      (Loras, "realistic_skin_texture"); (Loras, "skin_realism_acne");
      (Loras, "touch_of_realism") ]
  /\ map (fun c => (call_site c, call_key c))
         (new_calls w (snd (download_model_pack "sdxl" true true false w)))
     = [ (MainFiles, "checkpoint"); (MainFiles, "vae") ]
  /\ keys (default [] (pk_embeddings pack_sdxl)) = ["realistic_skin_ti"].
Proof.
  assert (Hgen : forall o l c,
            map (fun c => (call_site c, call_key c))
                (new_calls w (snd (download_model_pack "sdxl" o l c w)))
            = map fst (planned_pack pack_sdxl o l c)).
  { intros o l c. change (download_model_pack "sdxl" o l c w)
      with (download_pack pack_sdxl o l c w).
    destruct (download_pack_spec pack_sdxl o l c w)
      as (b & w' & new & Hrun & (Hcalls & _) & Hplan & _).
    rewrite Hrun. cbn [snd]. rewrite (new_calls_app _ _ _ Hcalls).
    rewrite <- Hplan, map_map. reflexivity. }
  rewrite !Hgen. repeat split.
Qed.

(** C7, as amended.  For every pack key and fixed flags: when every call
    of [download_file] in the first run returned true, the second run
    issues no request.  (A call that returned false left no file at its
    destination, which is then requested again.) *)
Theorem second_run_is_silent_after_success pack_name
    skip_optional skip_loras skip_controlnet w :
  (forall c,
     In c (new_calls w (snd (download_model_pack pack_name skip_optional
                               skip_loras skip_controlnet w))) ->
     call_result c = true) ->
  second_run_is_silent pack_name skip_optional skip_loras skip_controlnet w.
Proof.
  unfold second_run_is_silent, download_model_pack.
  destruct (assoc pack_name MODEL_PACKS) as [pack|];
    [|intros _; now apply new_requests_same].
  destruct (download_pack_spec pack skip_optional skip_loras skip_controlnet w)
    as (b1 & w1 & new1 & Hrun1 & (Hcalls1 & _ & _ & Hkept1 & _) & Hplan1 & _).
  rewrite Hrun1. cbn [snd]. rewrite (new_calls_app _ _ _ Hcalls1).
  intros Hall.
  destruct (download_pack_spec pack skip_optional skip_loras skip_controlnet w1)
    as (b2 & w2 & new2 & Hrun2 & (_ & _ & _ & _ & Hsame2) & Hplan2 & _).
  rewrite Hrun2. cbn [snd]. apply new_requests_same, Hsame2.
  intros c2 Hc2.
  assert (Hentry : In (call_entry c2) (map call_entry new1)).
  { replace (map call_entry new1) with (map snd (map call_plan new1))
      by (rewrite map_map; reflexivity).
    rewrite Hplan1, <- Hplan2, map_map. now apply (in_map call_entry). }
  apply in_map_iff in Hentry as (c1 & Heq & Hc1). rewrite <- Heq. auto.
Qed.

(** C10. The parser accepts the positional word exactly when it is a key
    of the catalog or ['list'].  A rejected command line ends the
    process with status 2 before anything else runs; an accepted word
    other than ['list'] is found in the catalog, so [download_model_pack]
    goes straight to the pack it names. *)
Theorem parser_guards_pack_lookup cl w :
  (parse_args cl = Some cl <->
   In (arg_pack cl) (keys MODEL_PACKS) \/ arg_pack cl = "list")
  /\ (~ (In (arg_pack cl) (keys MODEL_PACKS) \/ arg_pack cl = "list") ->
      parse_args cl = None)
  /\ (parse_args cl = None -> main cl w = (2, w))
  /\ (parse_args cl = Some cl -> arg_pack cl <> "list" ->
      exists pack,
        assoc (arg_pack cl) MODEL_PACKS = Some pack
        /\ download_model_pack (arg_pack cl) (arg_skip_optional cl)
             (arg_skip_loras cl) (arg_skip_controlnet cl) w
           = download_pack pack (arg_skip_optional cl) (arg_skip_loras cl)
               (arg_skip_controlnet cl) w).
Proof.
  assert (Haccept : parse_args cl = Some cl <->
                    In (arg_pack cl) (keys MODEL_PACKS) \/ arg_pack cl = "list").
  { unfold parse_args.
    destruct (existsb (String.eqb (arg_pack cl)) choices) eqn:Hchoice.
    - apply existsb_eqb_iff in Hchoice. unfold choices in Hchoice.
      apply in_app_or in Hchoice as [Hkey|[Hlist|[]]]; split; auto.
    - split; [discriminate|]. intros Hin. exfalso.
      assert (existsb (String.eqb (arg_pack cl)) choices = true) as Habs;
        [|congruence].
      apply existsb_eqb_iff. unfold choices. apply in_or_app.
      destruct Hin as [Hkey|Hlist]; [now left|right; now left]. }
  split; [exact Haccept|]. split; [|split].
  - intros Hother. unfold parse_args in *.
    destruct (existsb (String.eqb (arg_pack cl)) choices); [|reflexivity].
    exfalso. apply Hother, Haccept. reflexivity.
  - intros Hrej. unfold main. now rewrite Hrej.
  - intros Hacc Hword. apply Haccept in Hacc as [Hkey|Hlist]; [|contradiction].
    destruct (assoc (arg_pack cl) MODEL_PACKS) as [pack|] eqn:Hpack.
    + exists pack. split; [reflexivity|].
      unfold download_model_pack. now rewrite Hpack.
    + apply assoc_None_iff in Hpack. contradiction.
Qed.

(** * The claim about the listing *)

(** C8, as amended.  [list_model_packs] returns without a request and
    without touching the disk.  The keys of the catalog are distinct, and
    between a heading and a closing rule it prints one report per key, in
    order: the key, the name, the description, the number of main files,
    the number of LoRAs when it is positive, the number of ControlNets
    when it is positive, and the estimate, which is the sum of the
    numeric portions of the gigabyte-scale labels of the main files
    alone, to one decimal. *)
Theorem list_model_packs_report w :
  exists w',
    list_model_packs w = (Returned tt, w')
    /\ requests w' = requests w
    /\ fs w' = fs w
    /\ NoDup (keys MODEL_PACKS)
    /\ new_stdout w w'
       = [(nl +:+ "📋 Available Model Packs:" +:+ nl) +:+ nl;
          str_repeat "=" 80 +:+ nl]
         ++ flat_map (fun kp => pack_report (fst kp) (snd kp)) MODEL_PACKS
         ++ [(nl +:+ str_repeat "=" 80 +:+ nl) +:+ nl]
    /\ map (fun kp => (fst kp, format_1f (gb_total (map snd (pk_files (snd kp))))))
           MODEL_PACKS
       = [ ("flux-dev", "33.6"); ("flux-schnell", "28.7"); ("sdxl", "13.0");
           ("sdxl-biglove", "6.5"); ("wan22", "31.9"); ("qwen-image", "12.0");
           ("sd15", "4.0"); ("upscalers", "9.2") ].
Proof.
  eexists. split; [apply list_model_packs_run|].
  split; [reflexivity|]. split; [reflexivity|]. split.
  - apply NoDup_ListNoDup. cbn [keys map MODEL_PACKS fst].
    repeat (apply List.NoDup_cons; [cbn [In]; intuition discriminate|]).
    apply List.NoDup_nil.
  - split; [|vm_compute; reflexivity].
    unfold new_stdout, emit. cbn [stdout]. apply drop_app_length.
Qed.

(** * Further properties of fetch-one-file *)

Lemma status_ranges status :
  (400 <=? status)%nat && (status <? 500)%nat
  || (500 <=? status)%nat && (status <? 600)%nat
  = status_is_error status.
Proof.
  unfold status_is_error.
  destruct (Nat.leb_spec 400 status), (Nat.ltb_spec status 500),
    (Nat.leb_spec 500 status), (Nat.ltb_spec status 600); simpl; try reflexivity; lia.
Qed.

(** The chunk loop returns exactly when no write and no read fails. *)
Lemma write_chunks_returns t destination r rest :
  forall i w,
    (exists u, fst (write_chunks t destination r i rest w) = Returned u)
    <-> writes_ok t i rest && is_none (stream_error r) = true.
Proof.
  induction rest as [|chunk rest IH]; intros i w; simpl.
  - destruct (stream_error r); simpl.
    + split; [intros [u Hu]; discriminate|discriminate].
    + split; [reflexivity|eauto].
  - destruct chunk as [|b chunk]; [apply IH|].
    unfold bind, write. destruct (write_error t i) as [e|]; simpl.
    + split; [intros [u Hu]; discriminate|discriminate].
    + apply IH.
Qed.

(** When it returns, the chunks are on disk behind what the file held. *)
Lemma write_chunks_content t destination r rest :
  forall i w held w',
    fs w !! destination = Some held ->
    write_chunks t destination r i rest w = (Returned tt, w') ->
    fs w' = <[destination := held ++ concat rest]> (fs w).
Proof.
  induction rest as [|chunk rest IH]; intros i w held w' Hheld Hrun; simpl in Hrun.
  - destruct (stream_error r); [discriminate|].
    injection Hrun as <-. simpl. rewrite app_nil_r.
    symmetry. now apply insert_id.
  - destruct chunk as [|b chunk]; [now apply (IH (S i))|].
    unfold bind, write in Hrun. destruct (write_error t i); [discriminate|].
    simpl in Hrun.
    erewrite (IH (S i) _ (held ++ b :: chunk)); [| |exact Hrun].
    + simpl. apply map_eq. intros p.
      destruct (decide (p = destination)) as [->|Hne].
      * rewrite !lookup_insert_eq. cbn [concat]. now rewrite <- app_assoc.
      * rewrite !lookup_insert_ne by congruence. now apply lookup_alter_ne.
    + simpl. rewrite lookup_alter_eq, Hheld. reflexivity.
Qed.

(** The [try] body returns exactly when the transfer goes right. *)
Lemma transfer_returns url destination w :
  (exists b, fst (transfer url destination w) = Returned b)
  <-> transfer_ok (env (length (requests w)) url destination) = true.
Proof.
  rewrite transfer_eq. cbv zeta. unfold transfer_ok.
  set (t := env (length (requests w)) url destination).
  destruct (get_result t) as [e|r]; [split; [intros [b Hb]|]; discriminate|].
  unfold raise_for_status. rewrite <- status_ranges.
  destruct ((400 <=? status_code r)%nat && (status_code r <? 500)%nat);
    [split; [intros [b Hb]|]; discriminate|].
  destruct ((500 <=? status_code r)%nat && (status_code r <? 600)%nat);
    [split; [intros [b Hb]|]; discriminate|].
  unfold ret, total_size_of, raise, ret. cbn [orb negb andb].
  destruct (content_length r); [|split; [intros [b Hb]|]; discriminate|].
  all: destruct (open_error t); [split; [intros [b Hb]|]; discriminate|].
  all: cbn [is_none andb].
  all: rewrite <- (write_chunks_returns t destination r (chunks r) 0
                     (set_fs (<[destination := []]>) (add_request url w))).
  all: destruct (write_chunks _ _ _ _ _ _) as [[[]|e] w3]; simpl.
  all: split; eauto; intros [u Hu]; discriminate.
Qed.

(** The [try] body prints only when it returns. *)
Lemma transfer_stdout url destination w :
  stdout (snd (transfer url destination w))
  = match fst (transfer url destination w) with
    | Returned _ => stdout w ++ [("  ✓ Downloaded to " +:+ destination) +:+ nl]
    | Raised _ => stdout w
    end.
Proof.
  rewrite transfer_eq. cbv zeta.
  destruct (get_result _) as [e|r]; [reflexivity|].
  unfold raise_for_status, total_size_of, raise, ret.
  destruct (_ && _); [reflexivity|]. destruct (_ && _); [reflexivity|].
  destruct (content_length r); try reflexivity.
  all: destruct (open_error _); try reflexivity.
  all: match goal with
       | |- context [write_chunks ?t ?d ?r ?i ?c ?wa] =>
           destruct (write_chunks_frame t d r c i wa)
             as (res & w3 & Hrun & Hout & _); rewrite Hrun
       end.
  all: destruct res as [[]|e]; simpl; now rewrite Hout.
Qed.

(** When it returns, the body of the answer is the content of the
    destination. *)
Lemma transfer_content url destination w b :
  fst (transfer url destination w) = Returned b ->
  fs (snd (transfer url destination w))
  = <[destination := body_of (env (length (requests w)) url destination)]> (fs w).
Proof.
  rewrite transfer_eq. cbv zeta. unfold body_of.
  set (t := env (length (requests w)) url destination).
  destruct (get_result t) as [e|r]; [discriminate|].
  unfold raise_for_status, total_size_of, raise, ret.
  destruct (_ && _); [discriminate|]. destruct (_ && _); [discriminate|].
  destruct (content_length r); try discriminate.
  all: destruct (open_error t); try discriminate.
  all: destruct (write_chunks t destination r 0 (chunks r)
                   (set_fs (<[destination := []]>) (add_request url w)))
         as [[[]|e] w3] eqn:Hrun; [|discriminate].
  all: intros _; simpl.
  all: rewrite (write_chunks_content _ _ _ _ _ _ [] _ (lookup_insert_eq _ _ _) Hrun).
  all: simpl; apply insert_insert_eq.
Qed.

(** [download_file] when the destination is not there: the two lines, the
    [try] body, and the handler. *)
Lemma download_file_absent url destination description w :
  fs w !! destination = None ->
  download_file url destination description w
  = let w2 := emit (announcement url destination description) w in
    match transfer url destination w2 with
    | (Returned b, w3) => (Returned b, w3)
    | (Raised e, w3) =>
        (Returned false,
         set_fs (delete destination)
           (emit [("  ✗ Error downloading " +:+ path_name destination +:+ ": "
                   +:+ exc_msg e) +:+ nl] w3))
    end.
Proof.
  intros Habsent. unfold download_file, bind at 1, path_exists.
  rewrite Habsent, bool_decide_eq_false_2 by (intros [? ?]; discriminate).
  do 2 (erewrite bind_returned by apply print_emit). rewrite emit_emit.
  cbv zeta. unfold try_except, announcement. cbn [app].
  destruct (transfer url destination _) as [[b|e] w3]; [reflexivity|].
  erewrite bind_returned by apply print_emit.
  unfold bind at 1, path_exists. cbn [emit fs].
  destruct (fs w3 !! destination) as [partial|] eqn:Hpartial.
  - rewrite bool_decide_eq_true_2 by eauto.
    unfold bind, unlink, ret. cbn [emit fs]. now rewrite Hpartial.
  - rewrite bool_decide_eq_false_2 by (intros [? ?]; discriminate).
    unfold bind, ret. do 2 f_equal. unfold set_fs, emit. cbn.
    now rewrite delete_id.
Qed.

Lemma new_requests_app w w' reqs :
  requests w' = requests w ++ reqs -> new_requests w w' = reqs.
Proof. intros H. unfold new_requests. rewrite H. apply drop_app_length. Qed.

Lemma new_stdout_app w w' texts :
  stdout w' = stdout w ++ texts -> new_stdout w w' = texts.
Proof. intros H. unfold new_stdout. rewrite H. apply drop_app_length. Qed.

(** X1. [download_file] never deletes or rewrites a file that is on
    disk when it is called, the destination included: whatever the hosts
    do, every such file is there afterwards with the same content. *)
Theorem download_file_keeps_existing_files url destination description w p content :
  fs w !! p = Some content ->
  fs (snd (download_file url destination description w)) !! p = Some content.
Proof.
  intros Hheld.
  destruct (download_file_spec url destination description w)
    as (b & w' & Hrun & _ & _ & Hpresent & Habsent).
  rewrite Hrun. cbn [snd].
  destruct (fs w !! destination) as [old|] eqn:Hdest.
  - destruct Hpresent as (_ & Hfs & _); [eauto|]. now rewrite Hfs.
  - destruct (Habsent eq_refl) as (_ & Hother & _).
    rewrite Hother; [exact Hheld|]. intros ->. congruence.
Qed.

(** X2. When the destination is missing and the transfer goes right,
    [download_file] returns true after one request and the destination
    holds the chunks of the answer, in order; no other file changes. *)
Theorem download_file_stores_body url destination description w :
  fs w !! destination = None ->
  transfer_ok (env (length (requests w)) url destination) = true ->
  exists w',
    download_file url destination description w = (Returned true, w')
    /\ fs w' = <[destination := body_of (env (length (requests w)) url destination)]>
                 (fs w)
    /\ new_requests w w' = [url]
    /\ new_stdout w w'
       = announcement url destination description
         ++ [("  ✓ Downloaded to " +:+ destination) +:+ nl].
Proof.
  intros Habsent Hok. rewrite (download_file_absent _ _ _ _ Habsent). cbv zeta.
  set (w2 := emit (announcement url destination description) w).
  assert (Hok2 : transfer_ok (env (length (requests w2)) url destination) = true)
    by exact Hok.
  apply transfer_returns in Hok2 as [b Hb].
  pose proof (transfer_content url destination w2 b Hb) as Hcontent.
  pose proof (transfer_stdout url destination w2) as Hout. rewrite Hb in Hout.
  destruct (transfer_frame url destination w2)
    as (res & w3 & Hrun & Hreq & _ & _ & _ & Hres).
  rewrite Hrun in *. cbn [fst snd] in *. subst res. destruct Hres as [-> _].
  exists w3. split; [reflexivity|]. split; [exact Hcontent|]. split.
  - now apply new_requests_app.
  - apply new_stdout_app. rewrite Hout. unfold w2, emit. cbn [stdout].
    now rewrite <- app_assoc.
Qed.

(** X3. [download_file] returns true in exactly two cases: the
    destination is on disk already, or the transfer goes right (an
    answer with a status outside 400..599, a length header that is absent
    or a number, the destination opened, every non-empty chunk written,
    the stream read to its end). *)
Theorem download_file_true_iff url destination description w :
  fst (download_file url destination description w) = Returned true
  <-> is_Some (fs w !! destination)
      \/ transfer_ok (env (length (requests w)) url destination) = true.
Proof.
  destruct (download_file_spec url destination description w)
    as (b & w' & Hrun & _ & _ & Hpresent & Habsent).
  rewrite Hrun. cbn [fst].
  destruct (fs w !! destination) as [old|] eqn:Hdest.
  - destruct Hpresent as (-> & _); [eauto|]. split; eauto.
  - destruct (Habsent eq_refl) as (_ & _ & _ & _ & Hiff).
    rewrite <- transfer_returns. split.
    + intros Htrue. right. injection Htrue as ->.
      destruct (fst (transfer url destination w)) as [b|e] eqn:Hres; [eauto|].
      assert (true = false) by (apply Hiff; eauto). discriminate.
    + intros [[old Hold]|[b' Hb']]; [discriminate|].
      destruct b; [reflexivity|].
      destruct (proj1 Hiff eq_refl) as [e He]. congruence.
Qed.

(** X4. When the destination is missing and the transfer raises,
    [download_file] prints the two lines that announce the transfer and
    then one line with the name of the file and the message of the
    exception; nothing says that the file was downloaded. *)
Theorem download_file_reports_error url destination description w e :
  fs w !! destination = None ->
  fst (transfer url destination w) = Raised e ->
  new_stdout w (snd (download_file url destination description w))
  = announcement url destination description
    ++ [("  ✗ Error downloading " +:+ path_name destination +:+ ": "
         +:+ exc_msg e) +:+ nl].
Proof.
  intros Habsent Hraise. rewrite (download_file_absent _ _ _ _ Habsent). cbv zeta.
  set (w2 := emit (announcement url destination description) w).
  assert (Hv : fst (transfer url destination w2) = Raised e)
    by (rewrite <- Hraise; now apply transfer_verdict).
  pose proof (transfer_stdout url destination w2) as Hout. rewrite Hv in Hout.
  destruct (transfer url destination w2) as [res w3]. cbn [fst snd] in *. subst res.
  cbn [snd]. apply new_stdout_app. cbn [set_fs emit stdout].
  rewrite Hout. unfold w2, emit. cbn [stdout]. now rewrite <- app_assoc.
Qed.

(** * Further properties of fetch-one-pack *)

Lemma Careful_quiet w w' :
  fs w' = fs w -> requests w' = requests w ->
  (exists texts, stdout w' = stdout w ++ texts) ->
  Careful w w' [].
Proof.
  intros Hfs Hreq Hout. unfold Careful. rewrite Hfs, Hreq.
  split; [auto|]. split.
  { exists []. rewrite app_nil_r. split; [reflexivity|]. split; [reflexivity|].
    intros u []. }
  split; [auto|]. split; [intros c []|exact Hout].
Qed.

Lemma Careful_emit texts w : Careful w (emit texts w) [].
Proof. apply Careful_quiet; [reflexivity|reflexivity|]. now exists texts. Qed.

Lemma Careful_trans w w1 w2 n1 n2 :
  Careful w w1 n1 -> Careful w1 w2 n2 -> Careful w w2 (n1 ++ n2).
Proof.
  intros (Hkeep1 & (r1 & Hr1 & Hlen1 & Hfor1) & Hnew1 & Htrue1 & (t1 & Hout1))
         (Hkeep2 & (r2 & Hr2 & Hlen2 & Hfor2) & Hnew2 & Htrue2 & (t2 & Hout2)).
  assert (Hgone : forall p, fs w1 !! p = None -> fs w !! p = None).
  { intros p Hp. destruct (fs w !! p) as [content|] eqn:Hw; [|reflexivity].
    apply Hkeep1 in Hw. congruence. }
  unfold Careful. split; [auto|]. split; [|split; [|split]].
  - exists (r1 ++ r2). split; [rewrite Hr2, Hr1; now rewrite app_assoc|].
    split; [rewrite !length_app; lia|].
    intros u Hu. apply in_app_or in Hu as [Hu|Hu].
    + destruct (Hfor1 u Hu) as (c & Hc & Hurl & Hmiss).
      exists c. split; [apply in_or_app; now left|auto].
    + destruct (Hfor2 u Hu) as (c & Hc & Hurl & Hmiss).
      exists c. split; [apply in_or_app; now right|auto].
  - intros p Hp. destruct (Hnew2 p Hp) as [Hp1|(c & Hc & Hpath & Hres)].
    + destruct (Hnew1 p Hp1) as [Hp0|(c & Hc & Hpath & Hres)]; [now left|].
      right. exists c. split; [apply in_or_app; now left|auto].
    + right. exists c. split; [apply in_or_app; now right|auto].
  - intros c Hc Hthere. apply in_app_or in Hc as [Hc|Hc]; [auto|].
    apply Htrue2; [exact Hc|]. destruct Hthere as [content Hcontent].
    exists content. auto.
  - exists (t1 ++ t2). rewrite Hout2, Hout1. now rewrite app_assoc.
Qed.

Lemma fetch_step_careful {A} site key info description (k : bool -> M A) w :
  exists ok w',
    bind (download_file (fi_url info) (fi_path info) description)
         (fun ok => bind (note_call site key info ok) (fun _ => k ok)) w
    = k ok w'
    /\ calls w' = calls w ++ [{| call_site := site; call_key := key;
                                call_entry := info; call_result := ok |}]
    /\ Careful w w' [{| call_site := site; call_key := key;
                        call_entry := info; call_result := ok |}].
Proof.
  destruct (download_file_spec (fi_url info) (fi_path info) description w)
    as (ok & w1 & Hrun & Hcalls & Hout & Hpresent & Habsent).
  exists ok, (add_call {| call_site := site; call_key := key;
                          call_entry := info; call_result := ok |} w1).
  split; [unfold bind; rewrite Hrun; reflexivity|].
  split; [simpl; now rewrite Hcalls|].
  unfold Careful. cbn [add_call fs requests stdout].
  destruct (fs w !! fi_path info) as [held|] eqn:Hdest.
  - destruct Hpresent as (-> & Hfs & Hreq); [eauto|]. rewrite Hfs, Hreq.
    split; [auto|]. split.
    { exists []. rewrite app_nil_r. split; [reflexivity|].
      split; [simpl; lia|intros u []]. }
    split; [auto|]. split; [|exact Hout]. now intros c [<-|[]] _.
  - destruct (Habsent eq_refl) as (Hreq & Hother & Hkept & Hgone & _).
    split; [|split; [|split; [|split]]].
    + intros p content Hp. rewrite Hother; [exact Hp|]. intros ->. congruence.
    + exists [fi_url info]. split; [exact Hreq|]. split; [reflexivity|].
      intros u [<-|[]]. eexists. split; [now left|]. split; [reflexivity|exact Hdest].
    + intros p Hp. destruct (decide (p = fi_path info)) as [->|Hne].
      * right. eexists. split; [now left|]. split; [reflexivity|]. cbn.
        destruct ok; [reflexivity|]. rewrite Hgone in Hp by reflexivity.
        destruct Hp; discriminate.
      * left. now rewrite <- (Hother p Hne).
    + intros c [<-|[]] [held Hheld]. cbn in Hheld. congruence.
    + exact Hout.
Qed.

Lemma main_files_loop_careful skip_optional items :
  forall success w, exists b w' new,
    main_files_loop skip_optional items success w = (Returned b, w')
    /\ calls w' = calls w ++ new
    /\ Careful w w' new.
Proof.
  induction items as [|[file_name file_info] rest IH]; intros success w.
  - exists success, w, []. split; [reflexivity|]. split; [now rewrite app_nil_r|].
    apply Careful_quiet; [reflexivity|reflexivity|].
    exists []. now rewrite app_nil_r.
  - cbn [main_files_loop].
    destruct (skip_optional && get_optional file_info).
    + erewrite bind_returned by apply print_emit.
      destruct (IH success (emit [("  ⊘ Skipping optional file: " +:+ file_name)
                                  +:+ nl] w))
        as (b & w' & new & Hrun & Hcalls & Hcare).
      exists b, w', new. split; [exact Hrun|]. split; [exact Hcalls|].
      apply (Careful_trans _ _ _ [] new (Careful_emit _ w) Hcare).
    + destruct (fetch_step_careful MainFiles file_name file_info
                  (Some (describe file_name file_info))
                  (fun ok => main_files_loop skip_optional rest
                     (if negb ok then
                        if negb (get_optional file_info) then false else success
                      else success)) w)
        as (ok & w1 & Hstep & Hcalls1 & Hcare1).
      rewrite Hstep.
      destruct (IH (if negb ok then
                      if negb (get_optional file_info) then false else success
                    else success) w1)
        as (b & w' & new & Hrun & Hcalls & Hcare).
      exists b, w', ({| call_site := MainFiles; call_key := file_name;
                        call_entry := file_info; call_result := ok |} :: new).
      split; [exact Hrun|]. split.
      { rewrite Hcalls, Hcalls1. now rewrite <- app_assoc. }
      apply (Careful_trans _ _ _ [_] new Hcare1 Hcare).
Qed.

Lemma extras_loop_careful site what skip_optional items :
  forall w, exists w' new,
    extras_loop site what skip_optional items w = (Returned tt, w')
    /\ calls w' = calls w ++ new
    /\ Careful w w' new.
Proof.
  induction items as [|[key info] rest IH]; intros w.
  - exists w, []. split; [reflexivity|]. split; [now rewrite app_nil_r|].
    apply Careful_quiet; [reflexivity|reflexivity|].
    exists []. now rewrite app_nil_r.
  - cbn [extras_loop].
    destruct (skip_optional && get_optional info).
    + erewrite bind_returned by apply print_emit.
      destruct (IH (emit [("  ⊘ Skipping optional " +:+ what +:+ ": " +:+ key)
                          +:+ nl] w))
        as (w' & new & Hrun & Hcalls & Hcare).
      exists w', new. split; [exact Hrun|]. split; [exact Hcalls|].
      apply (Careful_trans _ _ _ [] new (Careful_emit _ w) Hcare).
    + destruct (fetch_step_careful site key info (Some (describe key info))
                  (fun _ => extras_loop site what skip_optional rest) w)
        as (ok & w1 & Hstep & Hcalls1 & Hcare1).
      rewrite Hstep.
      destruct (IH w1) as (w' & new & Hrun & Hcalls & Hcare).
      exists w', ({| call_site := site; call_key := key;
                     call_entry := info; call_result := ok |} :: new).
      split; [exact Hrun|]. split.
      { rewrite Hcalls, Hcalls1. now rewrite <- app_assoc. }
      apply (Careful_trans _ _ _ [_] new Hcare1 Hcare).
Qed.

Lemma loras_stage_careful pack skip_optional skip_loras w :
  exists w' new,
    loras_stage pack skip_optional skip_loras w = (Returned tt, w')
    /\ calls w' = calls w ++ new
    /\ Careful w w' new.
Proof.
  assert (Hidle : exists w' new,
             (Returned tt, w) = (Returned tt, w')
             /\ calls w' = calls w ++ new /\ Careful w w' new).
  { exists w, []. split; [reflexivity|]. split; [now rewrite app_nil_r|].
    apply Careful_quiet; [reflexivity|reflexivity|].
    exists []. now rewrite app_nil_r. }
  unfold loras_stage. destruct (pk_loras pack) as [loras|]; [|exact Hidle].
  destruct skip_loras; [exact Hidle|]. cbn [negb].
  erewrite bind_returned by apply print_emit.
  destruct (extras_loop_careful Loras "LoRA" skip_optional loras
              (emit [(nl +:+ "🎨 LoRA files:") +:+ nl] w))
    as (w' & new & Hrun & Hcalls & Hcare).
  exists w', new. split; [exact Hrun|]. split; [exact Hcalls|].
  apply (Careful_trans _ _ _ [] new (Careful_emit _ w) Hcare).
Qed.

Lemma controlnet_stage_careful pack skip_optional skip_controlnet w :
  exists w' new,
    controlnet_stage pack skip_optional skip_controlnet w = (Returned tt, w')
    /\ calls w' = calls w ++ new
    /\ Careful w w' new.
Proof.
  assert (Hidle : exists w' new,
             (Returned tt, w) = (Returned tt, w')
             /\ calls w' = calls w ++ new /\ Careful w w' new).
  { exists w, []. split; [reflexivity|]. split; [now rewrite app_nil_r|].
    apply Careful_quiet; [reflexivity|reflexivity|].
    exists []. now rewrite app_nil_r. }
  unfold controlnet_stage.
  destruct (pk_controlnet pack) as [controlnet|]; [|exact Hidle].
  destruct skip_controlnet; [exact Hidle|]. cbn [negb].
  erewrite bind_returned by apply print_emit.
  destruct (extras_loop_careful Controlnet "ControlNet" skip_optional controlnet
              (emit [(nl +:+ "🎮 ControlNet files:") +:+ nl] w))
    as (w' & new & Hrun & Hcalls & Hcare).
  exists w', new. split; [exact Hrun|]. split; [exact Hcalls|].
  apply (Careful_trans _ _ _ [] new (Careful_emit _ w) Hcare).
Qed.

(** Everything known about one run on a pack. *)
Lemma download_pack_full pack skip_optional skip_loras skip_controlnet w :
  exists b w' new mid,
    download_pack pack skip_optional skip_loras skip_controlnet w = (Returned b, w')
    /\ new_calls w w' = new
    /\ map call_plan new = planned_pack pack skip_optional skip_loras skip_controlnet
    /\ (b = true <->
        forall c, In c new -> call_site c = MainFiles ->
                  get_optional (call_entry c) = false -> call_result c = true)
    /\ Progress w w' new
    /\ Careful w w' new
    /\ new_stdout w w' = banner pack ++ mid ++ closing pack b.
Proof.
  destruct (download_pack_spec pack skip_optional skip_loras skip_controlnet w)
    as (b & w' & new & Hrun & Hprog & Hplan & Hiff).
  pose proof Hrun as Hagain. unfold download_pack in Hagain.
  do 5 (erewrite bind_returned in Hagain by apply print_emit).
  rewrite !emit_emit in Hagain. cbn [app] in Hagain. fold (banner pack) in Hagain.
  destruct (main_files_loop_careful skip_optional (pk_files pack) true
              (emit (banner pack) w))
    as (b1 & w6 & n1 & Hrun1 & Hcalls1 & Hcare1).
  rewrite (bind_returned _ _ _ _ _ Hrun1) in Hagain.
  destruct (loras_stage_careful pack skip_optional skip_loras w6)
    as (w7 & n2 & Hrun2 & Hcalls2 & Hcare2).
  rewrite (bind_returned _ _ _ _ _ Hrun2) in Hagain.
  destruct (controlnet_stage_careful pack skip_optional skip_controlnet w7)
    as (w8 & n3 & Hrun3 & Hcalls3 & Hcare3).
  rewrite (bind_returned _ _ _ _ _ Hrun3) in Hagain.
  erewrite bind_returned in Hagain by apply print_emit.
  assert (Hend : (Returned b1, emit (closing pack b1) w8) = (Returned b, w')).
  { rewrite <- Hagain. unfold closing.
    destruct b1; (erewrite bind_returned by apply print_emit);
      (erewrite bind_returned by apply print_emit);
      rewrite !emit_emit; reflexivity. }
  injection Hend as -> <-.
  pose proof (Careful_trans _ _ _ _ _ (Careful_emit (banner pack) w) Hcare1) as H06.
  pose proof (Careful_trans _ _ _ _ _ Hcare2 Hcare3) as H68.
  pose proof (Careful_trans _ _ _ _ _ H06 H68) as H08.
  pose proof (Careful_trans _ _ _ _ _ H08 (Careful_emit (closing pack b) w8)) as Hcare.
  cbn [app] in Hcare. rewrite app_nil_r in Hcare.
  assert (Hcalls : calls (emit (closing pack b) w8) = calls w ++ n1 ++ n2 ++ n3).
  { cbn [emit calls]. rewrite Hcalls3, Hcalls2, Hcalls1. cbn [emit calls].
    now rewrite <- !app_assoc. }
  assert (Hnew : new = n1 ++ n2 ++ n3).
  { destruct Hprog as (Hc & _). rewrite Hc in Hcalls. now apply app_inv_head in Hcalls. }
  destruct H08 as (_ & _ & _ & _ & (mid & Hmid)).
  exists b, (emit (closing pack b) w8), new.
  assert (Hexact : exists mid', stdout w8 = stdout w ++ banner pack ++ mid').
  { destruct Hcare1 as (_ & _ & _ & _ & (t1 & Ht1)).
    destruct H68 as (_ & _ & _ & _ & (t2 & Ht2)).
    exists (t1 ++ t2). rewrite Ht2, Ht1. cbn [emit stdout].
    now rewrite <- !app_assoc. }
  destruct Hexact as (mid' & Hmid').
  exists mid'. split; [exact Hrun|].
  split; [apply new_calls_app; now rewrite Hnew|].
  split; [exact Hplan|]. split; [exact Hiff|]. split; [exact Hprog|].
  split; [now rewrite Hnew|].
  apply new_stdout_app. cbn [emit stdout]. rewrite Hmid'.
  now rewrite <- !app_assoc.
Qed.

(** The same, from the key of the pack. *)
Lemma download_model_pack_found pack_name pack skip_optional skip_loras
    skip_controlnet w :
  assoc pack_name MODEL_PACKS = Some pack ->
  download_model_pack pack_name skip_optional skip_loras skip_controlnet w
  = download_pack pack skip_optional skip_loras skip_controlnet w.
Proof. intros Hpack. unfold download_model_pack. now rewrite Hpack. Qed.

Lemma download_model_pack_careful pack_name skip_optional skip_loras
    skip_controlnet w :
  exists b w',
    download_model_pack pack_name skip_optional skip_loras skip_controlnet w
    = (Returned b, w')
    /\ Careful w w' (new_calls w w').
Proof.
  unfold download_model_pack. destruct (assoc pack_name MODEL_PACKS) as [pack|].
  - destruct (download_pack_full pack skip_optional skip_loras skip_controlnet w)
      as (b & w' & new & mid & Hrun & Hnew & _ & _ & _ & Hcare & _).
    exists b, w'. split; [exact Hrun|]. now rewrite Hnew.
  - do 2 (erewrite bind_returned by apply print_emit). rewrite emit_emit.
    eexists _, _. split; [reflexivity|].
    replace (new_calls w _) with (@nil Call); [apply Careful_emit|].
    symmetry. apply new_calls_app. cbn [emit calls]. now rewrite app_nil_r.
Qed.

Lemma main_runs_pack pack_name pack skip_optional skip_loras skip_controlnet w b w' :
  assoc pack_name MODEL_PACKS = Some pack ->
  download_model_pack pack_name skip_optional skip_loras skip_controlnet w
  = (Returned b, w') ->
  main {| arg_pack := pack_name; arg_skip_optional := skip_optional;
          arg_skip_loras := skip_loras; arg_skip_controlnet := skip_controlnet |} w
  = (if b then 0 else 1, w').
Proof.
  intros Hpack Hrun. unfold main, parse_args.
  cbn [arg_pack arg_skip_optional arg_skip_loras arg_skip_controlnet].
  assert (Hchoice : existsb (String.eqb pack_name) choices = true).
  { apply existsb_eqb_iff. unfold choices. apply in_or_app. left.
    eapply assoc_Some_In, Hpack. }
  rewrite Hchoice.
  cbn [arg_pack arg_skip_optional arg_skip_loras arg_skip_controlnet].
  destruct (String.eqb_spec pack_name "list") as [->|_].
  - rewrite list_is_not_a_key in Hpack. discriminate.
  - now rewrite Hrun.
Qed.

Lemma planned_pack_main_files pack skip_optional skip_loras skip_controlnet key entry :
  In (MainFiles, key, entry)
     (planned_pack pack skip_optional skip_loras skip_controlnet) ->
  In (key, entry) (pk_files pack).
Proof.
  assert (Hsite : forall site items p,
            In p (planned site skip_optional items) ->
            p.1.1 = site /\ In (p.1.2, p.2) items).
  { intros site items p Hp. unfold planned, attempted in Hp.
    apply in_map_iff in Hp as ([k info] & <- & Hf).
    apply filter_In in Hf as [Hitem _]. auto. }
  unfold planned_pack. intros Hin.
  apply in_app_or in Hin as [Hin|Hin]; [now apply Hsite in Hin|].
  exfalso. apply in_app_or in Hin as [Hin|Hin].
  - destruct (pk_loras pack); [destruct skip_loras|]; try destruct Hin.
    apply Hsite in Hin as [Habs _]. discriminate.
  - destruct (pk_controlnet pack); [destruct skip_controlnet|]; try destruct Hin.
    apply Hsite in Hin as [Habs _]. discriminate.
Qed.

(** X5. A run of [download_model_pack], on any key and with any flags,
    never deletes or rewrites a file that is on disk when it starts,
    whatever the hosts do. *)
Theorem download_model_pack_keeps_existing_files pack_name
    skip_optional skip_loras skip_controlnet w p content :
  fs w !! p = Some content ->
  fs (snd (download_model_pack pack_name skip_optional skip_loras
             skip_controlnet w)) !! p = Some content.
Proof.
  intros Hheld.
  destruct (download_model_pack_careful pack_name skip_optional skip_loras
              skip_controlnet w) as (b & w' & Hrun & Hkeep & _).
  rewrite Hrun. cbn [snd]. auto.
Qed.


(** X7. A run issues at most one request per call of [download_file],
    and every request is for the URL of an entry it fetched whose
    destination was missing when the run started. *)
Theorem download_model_pack_requests pack_name
    skip_optional skip_loras skip_controlnet w :
  let w' := snd (download_model_pack pack_name skip_optional skip_loras
                   skip_controlnet w) in
  length (new_requests w w') <= length (new_calls w w')
  /\ forall u, In u (new_requests w w') ->
       exists c, In c (new_calls w w') /\ fi_url (call_entry c) = u
                 /\ fs w !! fi_path (call_entry c) = None.
Proof.
  destruct (download_model_pack_careful pack_name skip_optional skip_loras
              skip_controlnet w)
    as (b & w' & Hrun & _ & (reqs & Hreq & Hlen & Hfor) & _).
  rewrite Hrun. cbn [snd]. cbv zeta.
  rewrite (new_requests_app _ _ _ Hreq). auto.
Qed.

(** X8. Resuming: when the same command is run again from where a first
    run ended, every request of the second run is for the URL of an entry
    whose call returned false in the first run. *)
Theorem second_run_requests_only_failed pack_name
    skip_optional skip_loras skip_controlnet w u :
  let w1 := snd (download_model_pack pack_name skip_optional skip_loras
                   skip_controlnet w) in
  let w2 := snd (download_model_pack pack_name skip_optional skip_loras
                   skip_controlnet w1) in
  In u (new_requests w1 w2) ->
  exists c, In c (new_calls w w1) /\ call_result c = false
            /\ fi_url (call_entry c) = u.
Proof.
  cbv zeta. unfold download_model_pack.
  destruct (assoc pack_name MODEL_PACKS) as [pack|].
  - destruct (download_pack_full pack skip_optional skip_loras skip_controlnet w)
      as (b1 & w1 & new1 & mid1 & Hrun1 & Hnew1 & Hplan1 & _ & Hprog1 & _).
    rewrite Hrun1. cbn [snd]. rewrite Hnew1.
    destruct (download_pack_full pack skip_optional skip_loras skip_controlnet w1)
      as (b2 & w2 & new2 & mid2 & Hrun2 & _ & Hplan2 & _ & _ & Hcare2 & _).
    rewrite Hrun2. cbn [snd].
    destruct Hcare2 as (_ & (reqs & Hreq & _ & Hfor) & _).
    rewrite (new_requests_app _ _ _ Hreq). intros Hu.
    destruct (Hfor u Hu) as (c2 & Hc2 & Hurl & Hmissing).
    assert (Hplan : In (call_plan c2) (map call_plan new1))
      by (rewrite Hplan1, <- Hplan2; now apply in_map).
    apply in_map_iff in Hplan as (c1 & Hsame & Hc1).
    assert (Hentry : call_entry c1 = call_entry c2)
      by (unfold call_plan in Hsame; congruence).
    exists c1. split; [exact Hc1|]. split; [|now rewrite Hentry].
    destruct (call_result c1) eqn:Hres; [|reflexivity].
    destruct Hprog1 as (_ & _ & _ & Hkept & _).
    destruct (Hkept c1 Hc1 Hres) as [content Hcontent].
    rewrite Hentry in Hcontent. congruence.
  - do 2 (erewrite bind_returned by apply print_emit). cbn [snd].
    do 2 (erewrite bind_returned by apply print_emit). cbn [snd].
    rewrite new_requests_same by reflexivity. intros [].
Qed.

(** X9. When the destination of every entry that a run is to fetch is on
    disk already, the run returns true without a request and leaves the
    disk as it is, whatever the hosts would answer; the process exits
    with 0. *)
Theorem download_model_pack_offline pack_name pack
    skip_optional skip_loras skip_controlnet w :
  assoc pack_name MODEL_PACKS = Some pack ->
  (forall plan,
     In plan (planned_pack pack skip_optional skip_loras skip_controlnet) ->
     is_Some (fs w !! fi_path plan.2)) ->
  exists w',
    download_model_pack pack_name skip_optional skip_loras skip_controlnet w
    = (Returned true, w')
    /\ fs w' = fs w
    /\ requests w' = requests w
    /\ main {| arg_pack := pack_name; arg_skip_optional := skip_optional;
               arg_skip_loras := skip_loras;
               arg_skip_controlnet := skip_controlnet |} w
       = (0, w').
Proof.
  intros Hpack Hall.
  pose proof (download_model_pack_found _ _ skip_optional skip_loras
                skip_controlnet w Hpack) as Hfound.
  destruct (download_pack_full pack skip_optional skip_loras skip_controlnet w)
    as (b & w' & new & mid & Hrun & _ & Hplan & Hiff & Hprog & Hcare & _).
  assert (Hthere : forall c, In c new -> is_Some (fs w !! fi_path (call_entry c))).
  { intros c Hc. apply (Hall (call_plan c)). rewrite <- Hplan. now apply in_map. }
  assert (Hb : b = true).
  { apply Hiff. intros c Hc _ _.
    destruct Hcare as (_ & _ & _ & Htrue & _). auto. }
  subst b. rewrite <- Hfound in Hrun.
  destruct Hprog as (_ & _ & _ & _ & Hsame). destruct (Hsame Hthere) as [Hfs Hreq].
  exists w'. split; [exact Hrun|]. split; [exact Hfs|]. split; [exact Hreq|].
  apply (main_runs_pack _ _ _ _ _ _ true _ Hpack Hrun).
Qed.

(** X10. When every non-optional main file of a pack is on disk already,
    a run returns true and the process exits with 0, whatever the flags
    and whatever happens to the transfers of the other entries. *)
Theorem required_files_present_gives_success pack_name pack
    skip_optional skip_loras skip_controlnet w :
  assoc pack_name MODEL_PACKS = Some pack ->
  (forall key entry,
     In (key, entry) (pk_files pack) -> get_optional entry = false ->
     is_Some (fs w !! fi_path entry)) ->
  exists w',
    download_model_pack pack_name skip_optional skip_loras skip_controlnet w
    = (Returned true, w')
    /\ main {| arg_pack := pack_name; arg_skip_optional := skip_optional;
               arg_skip_loras := skip_loras;
               arg_skip_controlnet := skip_controlnet |} w
       = (0, w').
Proof.
  intros Hpack Hrequired.
  pose proof (download_model_pack_found _ _ skip_optional skip_loras
                skip_controlnet w Hpack) as Hfound.
  destruct (download_pack_full pack skip_optional skip_loras skip_controlnet w)
    as (b & w' & new & mid & Hrun & _ & Hplan & Hiff & _ & Hcare & _).
  assert (Hb : b = true).
  { apply Hiff. intros c Hc Hsite Hopt.
    destruct Hcare as (_ & _ & _ & Htrue & _). apply Htrue; [exact Hc|].
    apply (Hrequired (call_key c)); [|exact Hopt].
    apply (planned_pack_main_files pack skip_optional skip_loras skip_controlnet).
    rewrite <- Hplan, <- Hsite. now apply (in_map call_plan). }
  subst b. rewrite <- Hfound in Hrun.
  exists w'. split; [exact Hrun|].
  apply (main_runs_pack _ _ _ _ _ _ true _ Hpack Hrun).
Qed.

(** X11. The report of a run on a pack of the catalog opens with the
    banner of the pack and closes with a rule, the verdict and a rule;
    the verdict says "downloaded successfully" exactly when the run
    returns true and "downloaded with some errors" when it returns
    false. *)
Theorem download_model_pack_report_frame pack_name pack
    skip_optional skip_loras skip_controlnet w :
  assoc pack_name MODEL_PACKS = Some pack ->
  exists b w' mid,
    download_model_pack pack_name skip_optional skip_loras skip_controlnet w
    = (Returned b, w')
    /\ new_stdout w w' = banner pack ++ mid ++ closing pack b.
Proof.
  intros Hpack. rewrite (download_model_pack_found _ _ _ _ _ _ Hpack).
  destruct (download_pack_full pack skip_optional skip_loras skip_controlnet w)
    as (b & w' & new & mid & Hrun & _ & _ & _ & _ & _ & Hout).
  exists b, w', mid. auto.
Qed.

(** X12. No combination of the flags keeps a non-optional main file from
    being fetched: for each such entry of the pack there is a call of
    [download_file] from the main loop. *)
Theorem required_files_always_attempted pack_name pack
    skip_optional skip_loras skip_controlnet w key entry :
  assoc pack_name MODEL_PACKS = Some pack ->
  In (key, entry) (pk_files pack) ->
  get_optional entry = false ->
  exists c,
    In c (new_calls w (snd (download_model_pack pack_name skip_optional skip_loras
                              skip_controlnet w)))
    /\ call_plan c = (MainFiles, key, entry).
Proof.
  intros Hpack Hin Hopt. rewrite (download_model_pack_found _ _ _ _ _ _ Hpack).
  destruct (download_pack_full pack skip_optional skip_loras skip_controlnet w)
    as (b & w' & new & mid & Hrun & Hnew & Hplan & _).
  rewrite Hrun. cbn [snd]. rewrite Hnew.
  assert (Hplanned : In (MainFiles, key, entry) (map call_plan new)).
  { rewrite Hplan. unfold planned_pack. apply in_or_app. left.
    unfold planned, attempted.
    apply (in_map (fun kv => (MainFiles, kv.1, kv.2)) _ (key, entry)).
    apply filter_In. split; [exact Hin|]. cbn [snd]. rewrite Hopt.
    now destruct skip_optional. }
  apply in_map_iff in Hplanned as (c & Hc & Hcin). eauto.
Qed.

(** * A further property of the listing *)

(** X13. For a pack none of whose main files has a label that mentions
    ['GB'] (labels in smaller units, entries without a label, or no main
    file at all), the listing prints its report with the estimate
    [~0.0 GB], raises nothing, and touches neither the disk nor the
    network. *)
Theorem list_pack_without_gb_labels pack_name pack w :
  (forall f, In f (map snd (pk_files pack)) -> is_gb_label f = false) ->
  exists w',
    list_pack pack_name pack w = (Returned tt, w')
    /\ new_stdout w w' = pack_report pack_name pack
    /\ last (pack_report pack_name pack) = Some ("   Estimated size: ~0.0 GB" +:+ nl)
    /\ fs w' = fs w /\ requests w' = requests w.
Proof.
  intros Hnone.
  assert (Hreads : forallb label_reads (map snd (pk_files pack)) = true).
  { apply forallb_forall. intros f Hf. unfold label_reads. now rewrite (Hnone f Hf). }
  assert (Hzero : gb_total (map snd (pk_files pack)) = 0%Q).
  { unfold gb_total.
    replace (List.filter is_gb_label (map snd (pk_files pack))) with (@nil FileEntry);
      [reflexivity|].
    symmetry. clear Hreads. revert Hnone.
    generalize (map snd (pk_files pack)) as entries.
    induction entries as [|f rest IH]; intros Hnone; [reflexivity|].
    cbn [List.filter]. rewrite (Hnone f) by now left.
    apply IH. intros g Hg. apply Hnone. now right. }
  exists (emit (pack_report pack_name pack) w).
  split; [now apply list_pack_run|].
  split; [now apply new_stdout_app|]. split; [|split; reflexivity].
  unfold pack_report. rewrite Hzero, !app_assoc.
  match goal with
  | |- last (?front ++ [?blank; ?estimate]) = _ =>
      change (front ++ [blank; estimate]) with (front ++ [blank] ++ [estimate]);
      rewrite (app_assoc front [blank] [estimate])
  end.
  exact (last_snoc _ _).
Qed.

(** * A further property of a run without flags *)

Lemma attempted_all items : attempted false items = items.
Proof.
  unfold attempted. apply forallb_filter_id, forallb_forall. reflexivity.
Qed.

(** X15. Without flags, a run on a pack of the catalog passes to
    [download_file] every entry of the main files, then every entry of
    the LoRAs, then every entry of the ControlNets, each once and in the
    order of the catalog, and nothing else. *)
Theorem full_run_attempts_everything pack_name pack w :
  assoc pack_name MODEL_PACKS = Some pack ->
  map call_plan
      (new_calls w (snd (download_model_pack pack_name false false false w)))
  = map (fun kv => (MainFiles, fst kv, snd kv)) (pk_files pack)
    ++ map (fun kv => (Loras, fst kv, snd kv)) (default [] (pk_loras pack))
    ++ map (fun kv => (Controlnet, fst kv, snd kv)) (default [] (pk_controlnet pack)).
Proof.
  intros Hpack. rewrite (download_model_pack_found _ _ _ _ _ _ Hpack).
  destruct (download_pack_full pack false false false w)
    as (b & w' & new & mid & Hrun & Hnew & Hplan & _).
  rewrite Hrun. cbn [snd]. rewrite Hnew, Hplan.
  unfold planned_pack, planned. rewrite attempted_all.
  destruct (pk_loras pack), (pk_controlnet pack); cbn [default];
    rewrite ?attempted_all; reflexivity.
Qed.

End Downloader.

(** * Instances on concrete worlds *)

(** A file that is on disk is skipped, even with every host refusing. *)
Lemma download_file_skips_existing_witness :
  is_Some (fs (world_with "/workspace/models/vae/sdxl_vae.safetensors")
           !! "/workspace/models/vae/sdxl_vae.safetensors")
  /\ exists w',
       download_file refusing "https://invalid.example/none"
         "/workspace/models/vae/sdxl_vae.safetensors" None
         (world_with "/workspace/models/vae/sdxl_vae.safetensors")
       = (Returned true, w')
       /\ requests w' = []
       /\ fs w' = fs (world_with "/workspace/models/vae/sdxl_vae.safetensors").
Proof.
  assert (Hpresent : is_Some (fs (world_with "/workspace/models/vae/sdxl_vae.safetensors")
                              !! "/workspace/models/vae/sdxl_vae.safetensors"))
    by (eexists; reflexivity).
  split; [exact Hpresent|].
  destruct (download_file_skips_existing refusing "https://invalid.example/none"
              "/workspace/models/vae/sdxl_vae.safetensors" None
              (world_with "/workspace/models/vae/sdxl_vae.safetensors") Hpresent)
    as (w' & Hrun & Hreq & Hfs & _).
  exists w'. auto.
Defined.





(** A pack whose LoRA ['style'] and ControlNet ['pose'] are not optional:
    without flags all four entries are fetched; under [skip_loras] and
    [skip_controlnet] only the main file is. *)
Lemma skip_flags_exclude_witness :
  In ("style", strict_lora) (group_of strict_pack Loras)
  /\ get_optional strict_lora = false
  /\ (exists b w',
        download_pack serving strict_pack false false false empty_world
        = (Returned b, w')
        /\ map (fun c => (call_site c, call_key c)) (new_calls empty_world w')
           = [ (MainFiles, "base"); (Loras, "style"); (Loras, "extra");
               (Controlnet, "pose") ])
  /\ (exists b w',
        download_pack serving strict_pack false true true empty_world
        = (Returned b, w')
        /\ map (fun c => (call_site c, call_key c)) (new_calls empty_world w')
           = [ (MainFiles, "base") ]
        /\ forall c, In c (new_calls empty_world w') ->
                     call_site c <> Loras /\ call_site c <> Controlnet).
Proof.
  split; [now left|]. split; [reflexivity|]. split.
  - destruct (skip_flags_exclude default_root serving strict_pack false false false
                empty_world) as (b & w' & Hrun & _ & Hplan & _).
    exists b, w'. split; [exact Hrun|].
    replace (map (fun c => (call_site c, call_key c)) (new_calls empty_world w'))
      with (map fst (map call_plan (new_calls empty_world w')))
      by (rewrite map_map; reflexivity).
    rewrite Hplan. reflexivity.
  - destruct (skip_flags_exclude default_root serving strict_pack false true true
                empty_world) as (b & w' & Hrun & _ & Hplan & _ & _ & Hlo & Hcn).
    exists b, w'. split; [exact Hrun|]. split; [|auto].
    replace (map (fun c => (call_site c, call_key c)) (new_calls empty_world w'))
      with (map fst (map call_plan (new_calls empty_world w')))
      by (rewrite map_map; reflexivity).
    rewrite Hplan. reflexivity.
Defined.

(** ['sdxl'] with every host refusing: the run goes on to the end and
    the process exits with 1. *)
Lemma download_model_pack_result_witness :
  assoc "sdxl" (MODEL_PACKS default_root) = Some (pack_sdxl default_root)
  /\ exists w',
       download_model_pack default_root refusing "sdxl" false false false empty_world
       = (Returned false, w')
       /\ length (new_calls empty_world w') = 6
       /\ main default_root refusing
            {| arg_pack := "sdxl"; arg_skip_optional := false;
               arg_skip_loras := false; arg_skip_controlnet := false |} empty_world
          = (1, w').
Proof.
  assert (Hpack : assoc "sdxl" (MODEL_PACKS default_root)
                  = Some (pack_sdxl default_root)) by reflexivity.
  split; [exact Hpack|].
  destruct (download_model_pack_result default_root refusing "sdxl" _
              false false false empty_world Hpack)
    as (b & w' & Hrun & Hplan & _ & Hmain & _).
  assert (Hb : b = false).
  { assert (Hfst : fst (download_model_pack default_root refusing "sdxl"
                          false false false empty_world) = Returned b)
      by now rewrite Hrun.
    vm_compute in Hfst. congruence. }
  subst b. exists w'. split; [exact Hrun|]. split; [|exact Hmain].
  rewrite <- (length_map call_plan (new_calls empty_world w')), Hplan. reflexivity.
Defined.

(** ['sd15'] with every host serving: the second run is silent. *)
Lemma second_run_is_silent_after_success_witness :
  second_run_is_silent default_root serving "sd15" false false false empty_world.
Proof.
  apply second_run_is_silent_after_success.
  intros c Hc. vm_compute in Hc.
  repeat (destruct Hc as [<-|Hc]; [reflexivity|]). destruct Hc.
Defined.

(** ['sd3'] is turned away by the parser; ['wan22'] is let through. *)
Lemma parser_guards_pack_lookup_witness :
  main default_root serving
    {| arg_pack := "sd3"; arg_skip_optional := false;
       arg_skip_loras := false; arg_skip_controlnet := false |} empty_world
  = (2, empty_world)
  /\ exists pack,
       assoc "wan22" (MODEL_PACKS default_root) = Some pack.
Proof.
  split.
  - apply (parser_guards_pack_lookup default_root serving
             {| arg_pack := "sd3"; arg_skip_optional := false;
                arg_skip_loras := false; arg_skip_controlnet := false |}
             empty_world).
    reflexivity.
  - destruct (parser_guards_pack_lookup default_root serving
                {| arg_pack := "wan22"; arg_skip_optional := false;
                   arg_skip_loras := false; arg_skip_controlnet := false |}
                empty_world) as (_ & _ & _ & Hfound).
    destruct Hfound as (pack & Hpack & _); [reflexivity|discriminate|].
    exists pack. exact Hpack.
Defined.

(** C7, as stated, fails: with every host refusing, the first run on
    ['sd15'] leaves nothing on disk, and the second run sends its four
    requests again. *)
Lemma second_run_repeats_failed_requests :
  ~ second_run_is_silent default_root refusing "sd15" false false false empty_world.
Proof.
  unfold second_run_is_silent. vm_compute. discriminate.
Qed.

(** C8, as worded, fails twice: the report on ['flux-schnell'] mentions
    neither LoRAs nor ControlNets, and the estimate for ['wan22'] is
    31.89 where the labels of the whole pack sum to 38.19. *)
Lemma listing_not_as_worded :
  ~ counts_as_worded default_root empty_world
  /\ ~ total_as_worded default_root empty_world.
Proof.
  split.
  - intros Hcounts.
    destruct (Hcounts "flux-schnell" (pack_flux_schnell default_root))
      as [(t & Hin & Hlora) _]; [cbn; tauto|].
    vm_compute in Hin.
    repeat (destruct Hin as [<-|Hin]; [vm_compute in Hlora; discriminate|]).
    destruct Hin.
  - intros Htotal.
    destruct (Htotal "wan22" (pack_wan22 default_root))
      as (total & Hrun & Heq); [cbn; tauto|].
    vm_compute in Hrun. injection Hrun as <-.
    vm_compute in Heq. discriminate.
Qed.

(** * Instances of the further properties *)

(** A file on disk outlives a download to another destination. *)
Lemma download_file_keeps_existing_files_witness :
  fs (world_with "/workspace/models/vae/sdxl_vae.safetensors")
  !! "/workspace/models/vae/sdxl_vae.safetensors" = Some []
  /\ fs (snd (download_file serving "https://host.example/new.bin"
                "/workspace/models/loras/new.bin" None
                (world_with "/workspace/models/vae/sdxl_vae.safetensors")))
     !! "/workspace/models/vae/sdxl_vae.safetensors" = Some [].
Proof.
  split; [reflexivity|].
  apply (download_file_keeps_existing_files serving). reflexivity.
Defined.

(** The two chunks of a full answer are stored one after the other. *)
Lemma download_file_stores_body_witness :
  fs empty_world !! "/workspace/models/vae/ae.bin" = None
  /\ transfer_ok (serving 0 "https://host.example/ae.bin"
                    "/workspace/models/vae/ae.bin") = true
  /\ exists w',
       download_file serving "https://host.example/ae.bin"
         "/workspace/models/vae/ae.bin" None empty_world
       = (Returned true, w')
       /\ fs w' !! "/workspace/models/vae/ae.bin" = Some [Byte.x50; Byte.x4b]
       /\ new_requests empty_world w' = ["https://host.example/ae.bin"].
Proof.
  split; [reflexivity|]. split; [reflexivity|].
  destruct (download_file_stores_body serving "https://host.example/ae.bin"
              "/workspace/models/vae/ae.bin" None empty_world eq_refl eq_refl)
    as (w' & Hrun & Hfs & Hreq & _).
  exists w'. split; [exact Hrun|]. split; [|exact Hreq]. rewrite Hfs. reflexivity.
Defined.

(** A length header that is not a number fails the download of an
    answer with status 200. *)
Lemma download_file_true_iff_witness :
  fst (download_file garbled_length "https://host.example/ae.bin"
         "/workspace/models/vae/ae.bin" None empty_world)
  <> Returned true.
Proof.
  intros Htrue.
  apply (download_file_true_iff garbled_length) in Htrue as [[held Hheld]|Hok];
    discriminate.
Defined.

(** The line printed for a 404. *)
Lemma download_file_reports_error_witness :
  fs empty_world !! "/workspace/models/vae/gone.bin" = None
  /\ new_stdout empty_world
       (snd (download_file missing "https://host.example/gone.bin"
               "/workspace/models/vae/gone.bin" None empty_world))
     = announcement "https://host.example/gone.bin"
         "/workspace/models/vae/gone.bin" None
       ++ [("  ✗ Error downloading gone.bin: "
            +:+ "404 Client Error: Not Found for url: https://host.example/gone.bin")
           +:+ nl].
Proof.
  split; [reflexivity|].
  apply (download_file_reports_error missing "https://host.example/gone.bin"
           "/workspace/models/vae/gone.bin" None empty_world
           {| exc_class := HTTPError;
              exc_msg := "404 Client Error: Not Found for url: "
                         +:+ "https://host.example/gone.bin" |});
    [reflexivity|vm_compute; reflexivity].
Defined.

(** The VAE of another pack is still there after a run on ['sd15'] with
    every host refusing. *)
Lemma download_model_pack_keeps_existing_files_witness :
  fs (snd (download_model_pack default_root refusing "sd15" false false false
             (world_with "/workspace/models/vae/sdxl_vae.safetensors")))
  !! "/workspace/models/vae/sdxl_vae.safetensors" = Some [].
Proof.
  apply (download_model_pack_keeps_existing_files default_root refusing).
  reflexivity.
Defined.


(** With every host refusing, the second run on ['sd15'] asks again for
    the checkpoint, whose call had returned false. *)
Lemma second_run_requests_only_failed_witness :
  exists c,
    In c (new_calls empty_world
            (snd (download_model_pack default_root refusing "sd15" false false false
                    empty_world)))
    /\ call_result c = false
    /\ fi_url (call_entry c)
       = "https://huggingface.co/runwayml/stable-diffusion-v1-5/resolve/main/v1-5-pruned-emaonly.safetensors".
Proof.
  apply (second_run_requests_only_failed default_root refusing "sd15"
           false false false empty_world).
  vm_compute. left. reflexivity.
Defined.

(** ['sd15'] under [skip_optional], with its two main files on disk and
    every host refusing. *)
Lemma download_model_pack_offline_witness :
  exists w',
    download_model_pack default_root refusing "sd15" true false false sd15_on_disk
    = (Returned true, w')
    /\ requests w' = [] /\ fs w' = fs sd15_on_disk.
Proof.
  destruct (download_model_pack_offline default_root refusing "sd15"
              (pack_sd15 default_root) true false false sd15_on_disk eq_refl)
    as (w' & Hrun & Hfs & Hreq & _).
  - intros plan Hplan. vm_compute in Hplan.
    repeat (destruct Hplan as [<-|Hplan]; [eexists; vm_compute; reflexivity|]).
    destruct Hplan.
  - exists w'. auto.
Defined.

(** ['sd15'] without flags, its two main files on disk and every host
    refusing: the ControlNets fail and the process still exits with 0. *)
Lemma required_files_present_gives_success_witness :
  exists w',
    main default_root refusing
      {| arg_pack := "sd15"; arg_skip_optional := false;
         arg_skip_loras := false; arg_skip_controlnet := false |} sd15_on_disk
    = (0, w')
    /\ length (new_requests sd15_on_disk w') = 2.
Proof.
  destruct (required_files_present_gives_success default_root refusing "sd15"
              (pack_sd15 default_root) false false false sd15_on_disk eq_refl)
    as (w' & Hrun & Hmain).
  - intros key entry Hin _. cbn in Hin.
    repeat (destruct Hin as [Heq|Hin];
            [injection Heq as <- <-; eexists; vm_compute; reflexivity|]).
    destruct Hin.
  - exists w'. split; [exact Hmain|].
    assert (Hw : w' = snd (download_model_pack default_root refusing "sd15"
                             false false false sd15_on_disk))
      by now rewrite Hrun.
    rewrite Hw. vm_compute. reflexivity.
Defined.

(** The report of a run on ['sd15']. *)
Lemma download_model_pack_report_frame_witness :
  assoc "sd15" (MODEL_PACKS default_root) = Some (pack_sd15 default_root)
  /\ exists b w' mid,
       download_model_pack default_root refusing "sd15" false false false empty_world
       = (Returned b, w')
       /\ new_stdout empty_world w'
          = banner (pack_sd15 default_root) ++ mid
            ++ closing (pack_sd15 default_root) b.
Proof.
  split; [reflexivity|].
  apply (download_model_pack_report_frame default_root refusing). reflexivity.
Defined.

(** The checkpoint of ['sdxl'] is fetched with all three flags set. *)
Lemma required_files_always_attempted_witness :
  exists c,
    In c (new_calls empty_world
            (snd (download_model_pack default_root refusing "sdxl" true true true
                    empty_world)))
    /\ call_site c = MainFiles /\ call_key c = "checkpoint".
Proof.
  destruct (required_files_always_attempted default_root refusing "sdxl"
              (pack_sdxl default_root) true true true empty_world "checkpoint"
              _ eq_refl (or_introl eq_refl) eq_refl)
    as (c & Hc & Hplan).
  exists c. split; [exact Hc|]. unfold call_plan in Hplan.
  split; congruence.
Defined.

(** The listing of a pack with one label in MB and one entry without a
    label. *)
Lemma list_pack_without_gb_labels_witness :
  exists w',
    list_pack "small" small_pack empty_world = (Returned tt, w')
    /\ last (new_stdout empty_world w')
       = Some ("   Estimated size: ~0.0 GB" +:+ nl).
Proof.
  destruct (list_pack_without_gb_labels "small" small_pack empty_world)
    as (w' & Hrun & Hout & Hlast & _).
  - intros f Hf. cbn in Hf.
    repeat (destruct Hf as [<-|Hf]; [reflexivity|]). destruct Hf.
  - exists w'. split; [exact Hrun|]. now rewrite Hout.
Defined.

(** The whole of ['sd15'] is fetched without flags. *)
Lemma full_run_attempts_everything_witness :
  map (fun plan => (plan.1.1, plan.1.2))
      (map call_plan
         (new_calls empty_world
            (snd (download_model_pack default_root serving "sd15" false false false
                    empty_world))))
  = [ (MainFiles, "checkpoint"); (MainFiles, "vae");
      (Controlnet, "canny"); (Controlnet, "depth") ].
Proof.
  rewrite (full_run_attempts_everything default_root serving "sd15"
             (pack_sd15 default_root) empty_world eq_refl).
  reflexivity.
Defined.
